(** * TinyPixo video handler: [lambda/lambda_function.py]

    A shallow embedding of the Lambda entry point [lambda_handler] and of
    its two paths [get_video_info] and [download_video], followed by the
    properties of the request/response contract.

    Python values are the values JSON deserialisation produces.  A [str]
    is a [string] whose characters stand for the code points below 256,
    [bytes] is a [list byte].  The interpreter and the operating system
    ([json.loads], [repr], the name [tempfile] picks) and the [yt_dlp]
    collaborator are records of functions; every property is stated for
    all of them.  An [exn] is an instance of Python's [Exception], the
    class the handler's [except] clause names; the module [Raising]
    embeds the handler once more for surroundings that may also raise
    exceptions outside that class. *)

From Stdlib Require Import ZArith NArith Ascii String List PrimFloat.
From Stdlib.Strings Require Import Byte.
From stdpp Require Import base option list strings pretty gmap.

#[local] Set Warnings "-register-all".

Open Scope string_scope.
Open Scope Z_scope.

(** ** Python values *)

Inductive pyval : Type :=
| PNone
| PBool (b : bool)
| PInt (n : Z)
| PFloat (x : float)
| PStr (s : string)
| PList (items : list pyval)
| PDict (items : list (string * pyval)).

(** An exception: its class and what [str(e)] gives. *)
Record exn : Type := Exn { exn_class : string; exn_str : string }.

Inductive outcome (A : Type) : Type :=
| Returns (a : A)
| Raises (e : exn).
Arguments Returns {A} a.
Arguments Raises {A} e.

Definition obind {A B} (c : outcome A) (k : A -> outcome B) : outcome B :=
  match c with
  | Returns a => k a
  | Raises e => Raises e
  end.

Notation "'try!' x ':=' c 'in' k" := (obind c (fun x => k))
  (at level 10, x name, c at level 100, k at level 200).

Definition type_name (v : pyval) : string :=
  match v with
  | PNone => "NoneType"
  | PBool _ => "bool"
  | PInt _ => "int"
  | PFloat _ => "float"
  | PStr _ => "str"
  | PList _ => "list"
  | PDict _ => "dict"
  end.

(** The wording of the interpreter's own errors is CPython's. *)
Definition AttributeError (v : pyval) (attr : string) : exn :=
  Exn "AttributeError"
      ("'" ++ type_name v ++ "' object has no attribute '" ++ attr ++ "'").

Definition TypeError_not_iterable (v : pyval) : exn :=
  Exn "TypeError" ("argument of type '" ++ type_name v ++ "' is not iterable").

Definition TypeError_no_len (v : pyval) : exn :=
  Exn "TypeError" ("object of type '" ++ type_name v ++ "' has no len()").

Definition Exception (msg : string) : exn := Exn "Exception" msg.

(** [bool(v)], which [not v] negates. *)
Definition truthy (v : pyval) : bool :=
  match v with
  | PNone => false
  | PBool b => b
  | PInt n => negb (n =? 0)
  | PFloat x => negb (PrimFloat.eqb x PrimFloat.zero)
  | PStr s => negb (String.eqb s "")
  | PList l => match l with [] => false | _ => true end
  | PDict l => match l with [] => false | _ => true end
  end.

(** A dict is its items in insertion order; a key is looked up from the
    front. *)
Fixpoint dict_lookup (items : list (string * pyval)) (key : string) : option pyval :=
  match items with
  | [] => None
  | (k, v) :: rest => if String.eqb k key then Some v else dict_lookup rest key
  end.

Definition dict_get (items : list (string * pyval)) (key : string) (default : pyval) : pyval :=
  match dict_lookup items key with
  | Some v => v
  | None => default
  end.

(** [obj.get(key, default)] *)
Definition py_get (obj : pyval) (key : string) (default : pyval) : outcome pyval :=
  match obj with
  | PDict items => Returns (dict_get items key default)
  | _ => Raises (AttributeError obj "get")
  end.

(** [needle in hay] on two [str]: [needle] starts at some position of
    [hay]. *)
Fixpoint str_contains (needle hay : string) : bool :=
  String.prefix needle hay ||
  match hay with
  | EmptyString => false
  | String _ rest => str_contains needle rest
  end.

(** [v == s] for a [str] s *)
Definition py_eq_str (v : pyval) (s : string) : bool :=
  match v with
  | PStr s' => String.eqb s' s
  | _ => false
  end.

(** [needle in container] for a [str] needle: substring of a [str],
    element of a [list], key of a [dict]; nothing else is iterable. *)
Definition py_in (needle : string) (container : pyval) : outcome bool :=
  match container with
  | PStr s => Returns (str_contains needle s)
  | PList items => Returns (existsb (fun v => py_eq_str v needle) items)
  | PDict items => Returns (existsb (fun kv => String.eqb (fst kv) needle) items)
  | _ => Raises (TypeError_not_iterable container)
  end.

(** [len(v)] *)
Definition py_len (v : pyval) : outcome Z :=
  match v with
  | PStr s => Returns (Z.of_nat (String.length s))
  | PList items => Returns (Z.of_nat (List.length items))
  | PDict items => Returns (Z.of_nat (List.length items))
  | _ => Raises (TypeError_no_len v)
  end.

(** ** The interpreter and the operating system *)

Record entry : Type := Entry {
  entry_name : string;
  (** what [open(path, 'rb').read()] gives for this entry *)
  entry_read : outcome (list byte)
}.

(** A directory is its entries in [os.listdir] order. *)
Abbreviation filesystem := (gmap string (list entry)).

Record Runtime : Type := {
  (** [json.loads(v)] *)
  json_loads : pyval -> outcome pyval;
  (** [repr(v)] of a float or a container *)
  py_repr : pyval -> string;
  (** the directory name [tempfile] picks *)
  mkdtemp : filesystem -> string
}.

(** [str(v)], which an f-string field applies. *)
Definition py_str (R : Runtime) (v : pyval) : string :=
  match v with
  | PNone => "None"
  | PBool true => "True"
  | PBool false => "False"
  | PInt n => pretty n
  | PStr s => s
  | _ => py_repr R v
  end.

(** [posixpath.join(a, b)] *)
Definition ends_with_slash (a : string) : bool :=
  match String.length a with
  | O => false
  | S n => match String.get n a with
           | Some c => Ascii.eqb c "/"
           | None => false
           end
  end.

Definition os_path_join (a b : string) : string :=
  if String.prefix "/" b then b
  else if String.eqb a "" || ends_with_slash a then a ++ b
  else a ++ "/" ++ b.

(** ** [json.dumps] with its default options *)

Definition dquote : string := String "034" "".

Definition hex_digit (n : N) : ascii :=
  match String.get (N.to_nat n) "0123456789abcdef" with
  | Some c => c
  | None => "0"
  end.

Definition json_escape_char (c : ascii) : string :=
  let n := N_of_ascii c in
  if (n =? 34)%N then "\" ++ dquote
  else if (n =? 92)%N then "\\"
  else if (n =? 10)%N then "\n"
  else if (n =? 13)%N then "\r"
  else if (n =? 9)%N then "\t"
  else if (n =? 8)%N then "\b"
  else if (n =? 12)%N then "\f"
  else if ((32 <=? n) && (n <=? 126))%N then String c ""
  else "\u00" ++ String (hex_digit (n / 16)) (String (hex_digit (n mod 16)) "").

Fixpoint json_escape (s : string) : string :=
  match s with
  | EmptyString => ""
  | String c rest => json_escape_char c ++ json_escape rest
  end.

Definition json_string (s : string) : string := dquote ++ json_escape s ++ dquote.

Fixpoint join (sep : string) (parts : list string) : string :=
  match parts with
  | [] => ""
  | [p] => p
  | p :: rest => p ++ sep ++ join sep rest
  end.

Definition json_float (R : Runtime) (x : float) : string :=
  if PrimFloat.is_nan x then "NaN"
  else if PrimFloat.eqb x PrimFloat.infinity then "Infinity"
  else if PrimFloat.eqb x PrimFloat.neg_infinity then "-Infinity"
  else py_repr R (PFloat x).

Fixpoint json_dumps (R : Runtime) (v : pyval) : string :=
  match v with
  | PNone => "null"
  | PBool true => "true"
  | PBool false => "false"
  | PInt n => pretty n
  | PFloat x => json_float R x
  | PStr s => json_string s
  | PList items => "[" ++ join ", " (List.map (json_dumps R) items) ++ "]"
  | PDict items =>
      "{" ++ join ", " (List.map (fun kv => json_string (fst kv) ++ ": " ++ json_dumps R (snd kv)) items) ++ "}"
  end.

(** ** [base64.b64encode] *)

Definition b64_char (n : N) : ascii :=
  match String.get (N.to_nat n)
          "ABCDEFGHIJKLMNOPQRSTUVWXYZabcdefghijklmnopqrstuvwxyz0123456789+/" with
  | Some c => c
  | None => "="
  end.

Definition b64_group (n : N) (keep : nat) : string :=
  let sextet (i : N) := b64_char (N.land (N.shiftr n (18 - 6 * i)) 63) in
  match keep with
  | 1%nat => String (sextet 0%N) (String (sextet 1%N) "==")
  | 2%nat => String (sextet 0%N) (String (sextet 1%N) (String (sextet 2%N) "="))
  | _ => String (sextet 0%N) (String (sextet 1%N) (String (sextet 2%N) (String (sextet 3%N) "")))
  end.

Fixpoint b64encode (data : list byte) : string :=
  match data with
  | [] => ""
  | [a] => b64_group (Byte.to_N a * 65536) 1
  | [a; b] => b64_group (Byte.to_N a * 65536 + Byte.to_N b * 256) 2
  | a :: b :: c :: rest =>
      b64_group (Byte.to_N a * 65536 + Byte.to_N b * 256 + Byte.to_N c) 3
      ++ b64encode rest
  end.

(** ** The world of one invocation *)

(** What the handler asks of its surroundings. *)
Inductive effect : Type :=
| CallExtractInfo (ydl_opts url : pyval) (download : bool)
| CallDownload (ydl_opts : pyval) (urls : list pyval)
| MakeTempDir (dir : string)
| RemoveTempDir (dir : string).

(** The file system and, oldest first, the effects so far. *)
Record world : Type := World { fs : filesystem; trace : list effect }.

(** The extraction library. [ydl_download] may write to the file system. *)
Record YoutubeDL : Type := {
  ydl_extract_info : pyval -> pyval -> bool -> outcome pyval;
  ydl_download : pyval -> list pyval -> filesystem -> outcome unit * filesystem
}.

(** Code that reads and writes the world and may raise. *)
Definition M (A : Type) : Type := world -> outcome A * world.

Definition ret {A} (a : A) : M A := fun w => (Returns a, w).
Definition raise {A} (e : exn) : M A := fun w => (Raises e, w).
Definition lift {A} (c : outcome A) : M A := fun w => (c, w).
Definition bind {A B} (c : M A) (k : A -> M B) : M B := fun w =>
  match c w with
  | (Returns a, w') => k a w'
  | (Raises e, w') => (Raises e, w')
  end.

Notation "'let!' x ':=' c 'in' k" := (bind c (fun x => k))
  (at level 10, x name, c at level 100, k at level 200).

Definition log (ev : effect) (w : world) : world :=
  World (fs w) (trace w ++ [ev]).

(** [with yt_dlp.YoutubeDL(ydl_opts) as ydl: ydl.extract_info(url, download=d)] *)
Definition extract_info (Y : YoutubeDL) (ydl_opts url : pyval) (d : bool) : M pyval :=
  fun w => (ydl_extract_info Y ydl_opts url d, log (CallExtractInfo ydl_opts url d) w).

(** [with yt_dlp.YoutubeDL(ydl_opts) as ydl: ydl.download(urls)] *)
Definition download (Y : YoutubeDL) (ydl_opts : pyval) (urls : list pyval) : M unit :=
  fun w =>
    let '(r, fs') := ydl_download Y ydl_opts urls (fs w) in
    (r, World fs' (trace w ++ [CallDownload ydl_opts urls])).

(** [os.listdir(dir)] *)
Definition os_listdir (R : Runtime) (dir : string) : M (list string) := fun w =>
  match fs w !! dir with
  | Some entries => (Returns (List.map entry_name entries), w)
  | None =>
      (Raises (Exn "FileNotFoundError"
                   ("[Errno 2] No such file or directory: " ++ py_repr R (PStr dir))), w)
  end.

(** [open(os.path.join(dir, name), 'rb').read()], for [name] listed in [dir] *)
Definition read_file (R : Runtime) (dir name : string) : M (list byte) := fun w =>
  match fs w !! dir with
  | Some entries =>
      match List.find (fun e => String.eqb (entry_name e) name) entries with
      | Some e => (entry_read e, w)
      | None =>
          (Raises (Exn "FileNotFoundError"
                       ("[Errno 2] No such file or directory: "
                        ++ py_repr R (PStr (os_path_join dir name)))), w)
      end
  | None =>
      (Raises (Exn "FileNotFoundError"
                   ("[Errno 2] No such file or directory: "
                    ++ py_repr R (PStr (os_path_join dir name)))), w)
  end.

(** [with tempfile.TemporaryDirectory() as temp_dir: body]: the directory
    is created empty, and removed with its contents when the block is
    left, by a return or by an exception. *)
Definition with_TemporaryDirectory {A} (R : Runtime) (body : string -> M A) : M A :=
  fun w =>
    let temp_dir := mkdtemp R (fs w) in
    let w1 := World (<[temp_dir := []]> (fs w)) (trace w ++ [MakeTempDir temp_dir]) in
    let '(r, w2) := body temp_dir w1 in
    (r, World (delete temp_dir (fs w2)) (trace w2 ++ [RemoveTempDir temp_dir])).

(** ** The handler *)

Record response : Type := Response {
  statusCode : Z;
  headers : list (string * string);
  body : string
}.

Definition json_headers : list (string * string) :=
  [("Content-Type", "application/json")].

Section Handler.
Variable R : Runtime.
Variable Y : YoutubeDL.

Definition get_video_info (url : pyval) : M response :=
  let ydl_opts := PDict [("quiet", PBool true); ("no_warnings", PBool true)] in
  let! info := extract_info Y ydl_opts url false in
  let! title := lift (py_get info "title" (PStr "Unknown")) in
  let! thumbnail := lift (py_get info "thumbnail" PNone) in
  let! duration := lift (py_get info "duration" PNone) in
  let! uploader := lift (py_get info "uploader" PNone) in
  let! view_count := lift (py_get info "view_count" PNone) in
  let! formats := lift (py_get info "formats" (PList [])) in
  let! formats_available := lift (py_len formats) in
  ret (Response 200 json_headers
         (json_dumps R (PDict [("title", title);
                               ("thumbnail", thumbnail);
                               ("duration", duration);
                               ("uploader", uploader);
                               ("view_count", view_count);
                               ("formats_available", PInt formats_available)]))).

Definition download_opts (format_type : pyval) (output_path : string) : pyval :=
  if py_eq_str format_type "mp3" then
    PDict [("format", PStr "bestaudio/best");
           ("outtmpl", PStr output_path);
           ("postprocessors",
            PList [PDict [("key", PStr "FFmpegExtractAudio");
                          ("preferredcodec", PStr "mp3");
                          ("preferredquality", PStr "192")]]);
           ("quiet", PBool true)]
  else
    PDict [("format", PStr "best[ext=mp4]/best");
           ("outtmpl", PStr output_path);
           ("quiet", PBool true)].

Definition content_type (format_type : pyval) : string :=
  if py_eq_str format_type "mp4" then "video/mp4" else "audio/mpeg".

Definition download_body (url format_type : pyval) (temp_dir : string) : M response :=
  let output_path := os_path_join temp_dir ("video." ++ py_str R format_type) in
  let ydl_opts := download_opts format_type output_path in
  let! _ := download Y ydl_opts [url] in
  let! files := os_listdir R temp_dir in
  match files with
  | [] => raise (Exception "Download failed - no file created")
  | file0 :: _ =>
      let! file_data := read_file R temp_dir file0 in
      let file_base64 := b64encode file_data in
      ret (Response 200 json_headers
             (json_dumps R (PDict [("file_data", PStr file_base64);
                                   ("filename", PStr file0);
                                   ("content_type", PStr (content_type format_type))])))
  end.

Definition download_video (url format_type : pyval) : M response :=
  with_TemporaryDirectory R (download_body url format_type).

Definition error_response (status : Z) (message : string) : response :=
  Response status json_headers (json_dumps R (PDict [("error", PStr message)])).

(** [json.loads(event['body']) if event.get('body') else event] *)
Definition request_body (event : pyval) : outcome pyval :=
  try! b := py_get event "body" PNone in
  if truthy b then json_loads R b else Returns event.

(** ['youtube.com' in url or 'youtu.be' in url] *)
Definition is_youtube_url (url : pyval) : outcome bool :=
  try! long := py_in "youtube.com" url in
  if long then Returns true else py_in "youtu.be" url.

(** The dispatch on [action]. *)
Definition dispatch (url action format_type : pyval) : M response :=
  if py_eq_str action "info" then get_video_info url
  else if py_eq_str action "download" then download_video url format_type
  else ret (error_response 400 "Invalid action").

(** The [try] block of [lambda_handler]. *)
Definition lambda_handler_try (event : pyval) : M response :=
  let! body := lift (request_body event) in
  let! url := lift (py_get body "url" PNone) in
  let! action := lift (py_get body "action" (PStr "info")) in
  let! format_type := lift (py_get body "format" (PStr "mp4")) in
  if negb (truthy url) then ret (error_response 400 "URL is required")
  else
    let! valid := lift (is_youtube_url url) in
    if negb valid then ret (error_response 400 "Invalid YouTube URL")
    else dispatch url action format_type.

(** [try: ... except Exception as e: ...] around a block *)
Definition catch_all (block : M response) (w : world) : response * world :=
  match block w with
  | (Returns r, w') => (r, w')
  | (Raises e, w') => (error_response 500 (exn_str e), w')
  end.

Definition lambda_handler (event : pyval) : world -> response * world :=
  catch_all (lambda_handler_try event).

End Handler.

(** ** Vocabulary of the properties *)

(** [m] occurs somewhere in [s]. *)
Definition has_substring (m s : string) : Prop :=
  exists pre post, s = pre ++ m ++ post.

Definition recognized_host (s : string) : Prop :=
  has_substring "youtube.com" s \/ has_substring "youtu.be" s.

(** The three fields the handler reads from a parsed body. *)
Definition url_of (items : list (string * pyval)) : pyval :=
  dict_get items "url" PNone.
Definition action_of (items : list (string * pyval)) : pyval :=
  dict_get items "action" (PStr "info").
Definition format_of (items : list (string * pyval)) : pyval :=
  dict_get items "format" (PStr "mp4").

(** A url that gets past both checks of the handler. *)
Definition passes_validation (url : pyval) : Prop :=
  truthy url = true /\ is_youtube_url url = Returns true.

Definition info_opts : pyval :=
  PDict [("quiet", PBool true); ("no_warnings", PBool true)].

(** The options the collaborator's download is called with, for a
    temporary directory [temp_dir]. *)
Definition ydl_opts_in (R : Runtime) (format_type : pyval) (temp_dir : string) : pyval :=
  download_opts format_type (os_path_join temp_dir ("video." ++ py_str R format_type)).

(** The world in which the collaborator's download runs: the temporary
    directory has just been created, empty. *)
Definition files_at_download (R : Runtime) (w : world) : filesystem :=
  <[mkdtemp R (fs w) := []]> (fs w).

(** [s] between double quotes. *)
Definition quoted (s : string) : string := dquote ++ s ++ dquote.

(** ** Stubs for concrete runs *)

Definition stub_runtime : Runtime := {|
  json_loads := fun _ => Raises (Exn "JSONDecodeError" "Expecting value: line 1 column 1 (char 0)");
  py_repr := fun _ => "<repr>";
  mkdtemp := fun _ => "/tmp/tmpk3v9x2"
|}.

Definition empty_world : world := World ∅ [].

(** Scenario A: the collaborator's answer to the metadata probe. *)
Definition scenario_A_event : pyval :=
  PDict [("url", PStr "https://youtu.be/abc123"); ("action", PStr "info")].

Definition scenario_A_info : pyval :=
  PDict [("title", PStr "T"); ("thumbnail", PStr "th"); ("duration", PInt 120);
         ("uploader", PStr "U"); ("view_count", PInt 5);
         ("formats", PList [PInt 1; PInt 2; PInt 3])].

Definition scenario_A_object : pyval :=
  PDict [("title", PStr "T"); ("thumbnail", PStr "th"); ("duration", PInt 120);
         ("uploader", PStr "U"); ("view_count", PInt 5);
         ("formats_available", PInt 3)].

Definition scenario_A_body : string :=
  "{" ++ quoted "title" ++ ": " ++ quoted "T" ++ ", "
      ++ quoted "thumbnail" ++ ": " ++ quoted "th" ++ ", "
      ++ quoted "duration" ++ ": 120, "
      ++ quoted "uploader" ++ ": " ++ quoted "U" ++ ", "
      ++ quoted "view_count" ++ ": 5, "
      ++ quoted "formats_available" ++ ": 3}".

Definition stub_A : YoutubeDL := {|
  ydl_extract_info := fun _ _ _ => Returns scenario_A_info;
  ydl_download := fun _ _ files => (Returns tt, files)
|}.

(** A collaborator whose download leaves [entries] in directory [dir]. *)
Definition stub_writer (dir : string) (entries : list entry) : YoutubeDL := {|
  ydl_extract_info := fun _ _ _ => Returns (PDict []);
  ydl_download := fun _ _ files => (Returns tt, <[dir := entries]> files)
|}.

(** A collaborator that fails with [e] whatever it is asked. *)
Definition stub_failing (e : exn) : YoutubeDL := {|
  ydl_extract_info := fun _ _ _ => Raises e;
  ydl_download := fun _ _ files => (Raises e, files)
|}.

Definition download_event (format_type : string) : pyval :=
  PDict [("url", PStr "https://youtu.be/abc123"); ("action", PStr "download");
         ("format", PStr format_type)].

(** A runtime whose [json.loads] gives [parsed] for every body. *)
Definition stub_runtime_parsing (parsed : pyval) : Runtime := {|
  json_loads := fun _ => Returns parsed;
  py_repr := fun _ => "<repr>";
  mkdtemp := fun _ => "/tmp/tmpk3v9x2"
|}.

(** ** Reading a base64 payload back *)

(** The place of a character in the base64 alphabet. *)
Definition b64_index (c : ascii) : option N :=
  let n := N_of_ascii c in
  if ((65 <=? n) && (n <=? 90))%N then Some (n - 65)%N
  else if ((97 <=? n) && (n <=? 122))%N then Some (n - 71)%N
  else if ((48 <=? n) && (n <=? 57))%N then Some (n + 4)%N
  else if (n =? 43)%N then Some 62%N
  else if (n =? 47)%N then Some 63%N
  else None.

(** The first [keep] of the three bytes held by the 24 bits of [v]. *)
Definition b64_bytes (v : N) (keep : nat) : option (list byte) :=
  match Byte.of_N (v / 65536), Byte.of_N ((v / 256) mod 256), Byte.of_N (v mod 256) with
  | Some a, Some b, Some c => Some (firstn keep [a; b; c])
  | _, _, _ => None
  end.

(** The decoding a client applies to [file_data] (RFC 4648, section 4):
    four characters at a time, padding at the very end only. *)
Fixpoint b64decode (s : string) : option (list byte) :=
  match s with
  | EmptyString => Some []
  | String c0 (String c1 (String c2 (String c3 rest))) =>
      match b64_index c0, b64_index c1 with
      | Some i0, Some i1 =>
          match b64_index c2, b64_index c3 with
          | Some i2, Some i3 =>
              match b64_bytes (i0 * 262144 + i1 * 4096 + i2 * 64 + i3) 3, b64decode rest with
              | Some group, Some tail => Some (group ++ tail)%list
              | _, _ => None
              end
          | Some i2, None =>
              if Ascii.eqb c3 "=" && String.eqb rest ""
              then b64_bytes (i0 * 262144 + i1 * 4096 + i2 * 64) 2
              else None
          | None, None =>
              if Ascii.eqb c2 "=" && Ascii.eqb c3 "=" && String.eqb rest ""
              then b64_bytes (i0 * 262144 + i1 * 4096) 1
              else None
          | None, Some _ => None
          end
      | _, _ => None
      end
  | _ => None
  end.

(** ** Printable ASCII *)

Definition printable (c : ascii) : bool :=
  ((32 <=? N_of_ascii c) && (N_of_ascii c <=? 126))%N.

Fixpoint all_printable (s : string) : bool :=
  match s with
  | EmptyString => true
  | String c rest => printable c && all_printable rest
  end.

(** ** Exceptions outside [Exception] *)

(** [KeyboardInterrupt], [SystemExit] and [GeneratorExit] derive from
    [BaseException] and not from [Exception].  The handler is embedded a
    second time below, with a collaborator that may raise one of them:
    the code is the same, an exception of either kind ends a block and a
    [with] statement alike, and only the [except Exception] clause tells
    the two kinds apart. *)
Module Raising.

Inductive raised : Type :=
| Instance_of_Exception (e : exn)
| Outside_Exception (class_name : string) (text : string).

Inductive ended (A : Type) : Type :=
| Returned (a : A)
| Raised (x : raised).
Arguments Returned {A} a.
Arguments Raised {A} x.

Definition of_outcome {A} (o : outcome A) : ended A :=
  match o with
  | Returns a => Returned a
  | Raises e => Raised (Instance_of_Exception e)
  end.

(** Code of the interpreter and the operating system, which raises
    instances of [Exception] only. *)
Definition plain {A} (c : M A) : world -> ended A * world := fun w =>
  let '(o, w') := c w in (of_outcome o, w').

(** The extraction library, which may raise anything. *)
Record YoutubeDL : Type := {
  ydl_extract_info : pyval -> pyval -> bool -> ended pyval;
  ydl_download : pyval -> list pyval -> filesystem -> ended unit * filesystem
}.

Definition M (A : Type) : Type := world -> ended A * world.

Definition ret {A} (a : A) : M A := fun w => (Returned a, w).
Definition lift {A} (c : outcome A) : M A := fun w => (of_outcome c, w).
Definition bind {A B} (c : M A) (k : A -> M B) : M B := fun w =>
  match c w with
  | (Returned a, w') => k a w'
  | (Raised x, w') => (Raised x, w')
  end.

Notation "'do!' x ':=' c 'in' k" := (bind c (fun x => k))
  (at level 10, x name, c at level 100, k at level 200).

Definition extract_info (Y : YoutubeDL) (ydl_opts url : pyval) (d : bool) : M pyval :=
  fun w => (ydl_extract_info Y ydl_opts url d, log (CallExtractInfo ydl_opts url d) w).

Definition download (Y : YoutubeDL) (ydl_opts : pyval) (urls : list pyval) : M unit :=
  fun w =>
    let '(r, fs') := ydl_download Y ydl_opts urls (fs w) in
    (r, World fs' (trace w ++ [CallDownload ydl_opts urls])).

Definition with_TemporaryDirectory {A} (R : Runtime) (body : string -> M A) : M A :=
  fun w =>
    let temp_dir := mkdtemp R (fs w) in
    let w1 := World (<[temp_dir := []]> (fs w)) (trace w ++ [MakeTempDir temp_dir]) in
    let '(r, w2) := body temp_dir w1 in
    (r, World (delete temp_dir (fs w2)) (trace w2 ++ [RemoveTempDir temp_dir])).

Section Handler.
Variable R : Runtime.
Variable Y : YoutubeDL.

Definition get_video_info (url : pyval) : M response :=
  let ydl_opts := PDict [("quiet", PBool true); ("no_warnings", PBool true)] in
  do! info := extract_info Y ydl_opts url false in
  do! title := lift (py_get info "title" (PStr "Unknown")) in
  do! thumbnail := lift (py_get info "thumbnail" PNone) in
  do! duration := lift (py_get info "duration" PNone) in
  do! uploader := lift (py_get info "uploader" PNone) in
  do! view_count := lift (py_get info "view_count" PNone) in
  do! formats := lift (py_get info "formats" (PList [])) in
  do! formats_available := lift (py_len formats) in
  ret (Response 200 json_headers
         (json_dumps R (PDict [("title", title);
                               ("thumbnail", thumbnail);
                               ("duration", duration);
                               ("uploader", uploader);
                               ("view_count", view_count);
                               ("formats_available", PInt formats_available)]))).

Definition download_body (url format_type : pyval) (temp_dir : string) : M response :=
  let output_path := os_path_join temp_dir ("video." ++ py_str R format_type) in
  let ydl_opts := download_opts format_type output_path in
  do! _ := download Y ydl_opts [url] in
  do! files := plain (os_listdir R temp_dir) in
  match files with
  | [] => lift (Raises (Exception "Download failed - no file created"))
  | file0 :: _ =>
      do! file_data := plain (read_file R temp_dir file0) in
      let file_base64 := b64encode file_data in
      ret (Response 200 json_headers
             (json_dumps R (PDict [("file_data", PStr file_base64);
                                   ("filename", PStr file0);
                                   ("content_type", PStr (content_type format_type))])))
  end.

Definition download_video (url format_type : pyval) : M response :=
  with_TemporaryDirectory R (download_body url format_type).

Definition dispatch (url action format_type : pyval) : M response :=
  if py_eq_str action "info" then get_video_info url
  else if py_eq_str action "download" then download_video url format_type
  else ret (error_response R 400 "Invalid action").

(** The [try] block of [lambda_handler]. *)
Definition lambda_handler_try (event : pyval) : M response :=
  do! body := lift (request_body R event) in
  do! url := lift (py_get body "url" PNone) in
  do! action := lift (py_get body "action" (PStr "info")) in
  do! format_type := lift (py_get body "format" (PStr "mp4")) in
  if negb (truthy url) then ret (error_response R 400 "URL is required")
  else
    do! valid := lift (is_youtube_url url) in
    if negb valid then ret (error_response R 400 "Invalid YouTube URL")
    else dispatch url action format_type.

(** [try: ... except Exception as e: ...]: the clause answers an instance
    of [Exception] and lets anything else through to the caller. *)
Definition lambda_handler (event : pyval) : M response := fun w =>
  match lambda_handler_try event w with
  | (Returned r, w') => (Returned r, w')
  | (Raised (Instance_of_Exception e), w') =>
      (Returned (error_response R 500 (exn_str e)), w')
  | (Raised (Outside_Exception class_name text), w') =>
      (Raised (Outside_Exception class_name text), w')
  end.

End Handler.

(** A collaborator interrupted in whatever it is asked. *)
Definition stub_interrupted : YoutubeDL := {|
  ydl_extract_info := fun _ _ _ => Raised (Outside_Exception "KeyboardInterrupt" "");
  ydl_download := fun _ _ files => (Raised (Outside_Exception "KeyboardInterrupt" ""), files)
|}.

End Raising.

(** A collaborator that raises instances of [Exception] only, seen as
    one that may raise anything. *)
Definition any_raising (Y : YoutubeDL) : Raising.YoutubeDL :=
  Raising.Build_YoutubeDL
    (fun ydl_opts url d => Raising.of_outcome (ydl_extract_info Y ydl_opts url d))
    (fun ydl_opts urls files =>
       let '(r, files') := ydl_download Y ydl_opts urls files in
       (Raising.of_outcome r, files')).


(** The 500 response made from an exception. *)
Definition answer_500 (R : Runtime) (e : exn) : response :=
  Response 500 [("Content-Type", "application/json")]
    (json_dumps R (PDict [("error", PStr (exn_str e))])).

(** ** [json.dumps] of a string of any code points *)

(** ['{0:04x}'.format(n)] for [n] below 65536 *)
Definition hex4 (n : N) : string :=
  String (hex_digit ((n / 4096) mod 16))
    (String (hex_digit ((n / 256) mod 16))
       (String (hex_digit ((n / 16) mod 16))
          (String (hex_digit (n mod 16)) ""))).

(** What the encoder writes for the character of code point [n]: the
    short escapes, the character itself from space to tilde, [\uXXXX]
    below 65536 and a surrogate pair from there on. *)
Definition json_escape_code_point (n : N) : string :=
  if (n =? 34)%N then "\" ++ dquote
  else if (n =? 92)%N then "\\"
  else if (n =? 10)%N then "\n"
  else if (n =? 13)%N then "\r"
  else if (n =? 9)%N then "\t"
  else if (n =? 8)%N then "\b"
  else if (n =? 12)%N then "\f"
  else if ((32 <=? n) && (n <=? 126))%N then String (ascii_of_N n) ""
  else if (n <? 65536)%N then "\u" ++ hex4 n
  else
    let v := (n - 65536)%N in
    "\u" ++ hex4 (N.lor 55296 (N.land (N.shiftr v 10) 1023))
    ++ "\u" ++ hex4 (N.lor 56320 (N.land v 1023)).

Fixpoint json_escape_text (code_points : list N) : string :=
  match code_points with
  | [] => ""
  | n :: rest => json_escape_code_point n ++ json_escape_text rest
  end.

(** The code points of a string of the model. *)
Fixpoint code_points (s : string) : list N :=
  match s with
  | EmptyString => []
  | String c rest => N_of_ascii c :: code_points rest
  end.

(** [json.dumps({'error': message})] for a message of any code points. *)
Definition error_body_text (message : list N) : string :=
  "{" ++ quoted "error" ++ ": " ++ (dquote ++ json_escape_text message ++ dquote) ++ "}".

(** ** The paths through the handler *)

(** The six ways the [try] block of [lambda_handler] can go, with what
    decides each: an exception before the dispatch, one of the three
    client errors, or one of the two calls of the dispatch. *)
Inductive handler_path (R : Runtime) (Y : YoutubeDL) (event : pyval) (w : world) : Prop :=
| Path_early_exception (e : exn) :
    lambda_handler_try R Y event w = (Raises e, w) ->
    handler_path R Y event w
| Path_url_required (items : list (string * pyval)) :
    request_body R event = Returns (PDict items) ->
    truthy (url_of items) = false ->
    lambda_handler_try R Y event w
    = (Returns (error_response R 400 "URL is required"), w) ->
    handler_path R Y event w
| Path_invalid_url (items : list (string * pyval)) :
    request_body R event = Returns (PDict items) ->
    truthy (url_of items) = true ->
    is_youtube_url (url_of items) = Returns false ->
    lambda_handler_try R Y event w
    = (Returns (error_response R 400 "Invalid YouTube URL"), w) ->
    handler_path R Y event w
| Path_info (items : list (string * pyval)) :
    request_body R event = Returns (PDict items) ->
    passes_validation (url_of items) ->
    action_of items = PStr "info" ->
    lambda_handler_try R Y event w = get_video_info R Y (url_of items) w ->
    handler_path R Y event w
| Path_download (items : list (string * pyval)) :
    request_body R event = Returns (PDict items) ->
    passes_validation (url_of items) ->
    action_of items = PStr "download" ->
    lambda_handler_try R Y event w
    = download_video R Y (url_of items) (format_of items) w ->
    handler_path R Y event w
| Path_invalid_action (items : list (string * pyval)) :
    request_body R event = Returns (PDict items) ->
    passes_validation (url_of items) ->
    action_of items <> PStr "info" ->
    action_of items <> PStr "download" ->
    lambda_handler_try R Y event w
    = (Returns (error_response R 400 "Invalid action"), w) ->
    handler_path R Y event w.

(** * Properties *)

(** ** Substrings *)

Lemma prefix_split (m s : string) :
  String.prefix m s = true <-> exists post, s = m ++ post.
Proof.
  revert s. induction m as [|c m IH]; intros [|d s]; simpl.
  - split; [intros _; exists ""; reflexivity | reflexivity].
  - split; [intros _; exists (String d s); reflexivity | reflexivity].
  - split; [discriminate | intros [post H]; discriminate H].
  - destruct (ascii_dec c d) as [->|Hne].
    + rewrite IH. split; intros [post H]; exists post.
      * change (String d s = String d (m ++ post)). now rewrite H.
      * change (String d s = String d (m ++ post)) in H. now injection H.
    + split; [discriminate |].
      intros [post H]. change (String d s = String c (m ++ post)) in H.
      injection H; congruence.
Qed.

Lemma str_contains_spec (m s : string) :
  str_contains m s = true <-> has_substring m s.
Proof.
  unfold has_substring. induction s as [|c s IH]; cbn [str_contains].
  - rewrite orb_false_r, prefix_split. split.
    + intros [post H]. exists "", post. exact H.
    + intros ([|d pre] & post & H); [exists post; exact H | discriminate H].
  - rewrite orb_true_iff, prefix_split, IH. split.
    + intros [[post H] | (pre & post & H)].
      * exists "", post. exact H.
      * exists (String c pre), post.
        change (String c s = String c (pre ++ m ++ post)). now rewrite H.
    + intros ([|d pre] & post & H).
      * left. exists post. exact H.
      * right. exists pre, post.
        change (String c s = String d (pre ++ m ++ post)) in H. now injection H.
Qed.

Lemma str_contains_false (m s : string) :
  str_contains m s = false <-> ~ has_substring m s.
Proof.
  rewrite <- str_contains_spec. destruct (str_contains m s); split; congruence.
Qed.

(** The validity test on a [str] is the substring test for the two markers. *)
Lemma is_youtube_url_str (s : string) :
  is_youtube_url (PStr s)
  = Returns (str_contains "youtube.com" s || str_contains "youtu.be" s).
Proof.
  unfold is_youtube_url; simpl.
  destruct (str_contains "youtube.com" s); reflexivity.
Qed.

Lemma is_youtube_url_recognized (s : string) :
  is_youtube_url (PStr s) = Returns true <-> recognized_host s.
Proof.
  rewrite is_youtube_url_str. unfold recognized_host.
  rewrite <- !str_contains_spec, <- orb_true_iff.
  split; [now intros [= ->] | now intros ->].
Qed.

Lemma is_youtube_url_unrecognized (s : string) :
  is_youtube_url (PStr s) = Returns false <-> ~ recognized_host s.
Proof.
  rewrite <- is_youtube_url_recognized, is_youtube_url_str.
  destruct (_ || _); split; congruence.
Qed.

(** ** Running the handler *)

Lemma py_eq_str_true (v : pyval) (s : string) :
  py_eq_str v s = true <-> v = PStr s.
Proof.
  destruct v; simpl; try (split; [discriminate | intros [=]]).
  rewrite String.eqb_eq. split; [now intros -> | now intros [= ->]].
Qed.

Lemma py_eq_str_false (v : pyval) (s : string) :
  py_eq_str v s = false <-> v <> PStr s.
Proof.
  rewrite <- py_eq_str_true. destruct (py_eq_str v s); split; congruence.
Qed.

(** Once the body is parsed into a dict, the [try] block is the cascade
    of the three checks on its fields. *)
Lemma lambda_handler_try_parsed R Y event items w :
  request_body R event = Returns (PDict items) ->
  lambda_handler_try R Y event w
  = (if negb (truthy (url_of items))
     then ret (error_response R 400 "URL is required")
     else
       let! valid := lift (is_youtube_url (url_of items)) in
       if negb valid then ret (error_response R 400 "Invalid YouTube URL")
       else dispatch R Y (url_of items) (action_of items) (format_of items)) w.
Proof.
  intros Hbody. unfold lambda_handler_try, bind, lift.
  rewrite Hbody. reflexivity.
Qed.

Lemma lambda_handler_try_validated R Y event items w :
  request_body R event = Returns (PDict items) ->
  passes_validation (url_of items) ->
  lambda_handler_try R Y event w
  = dispatch R Y (url_of items) (action_of items) (format_of items) w.
Proof.
  intros Hbody [Htruthy Hvalid].
  rewrite (lambda_handler_try_parsed _ _ _ _ _ Hbody).
  rewrite Htruthy. unfold bind, lift. rewrite Hvalid. reflexivity.
Qed.

(** Opens the handler on a validated request whose action is known, up
    to the branch of the dispatch it takes. *)
Ltac enter_dispatch Hbody Hpass Haction :=
  unfold lambda_handler, catch_all;
  rewrite (lambda_handler_try_validated _ _ _ _ _ Hbody Hpass);
  unfold dispatch; rewrite Haction;
  cbn [py_eq_str String.eqb Ascii.eqb Bool.eqb].

(** A body that does not parse, or is not a dict, ends the [try] block
    before anything else is looked at. *)
Lemma parse_failure_surfaces R Y event e w :
  request_body R event = Raises e ->
  lambda_handler_try R Y event w = (Raises e, w).
Proof.
  intros Hbody. unfold lambda_handler_try, bind, lift.
  rewrite Hbody. reflexivity.
Qed.

Lemma error_response_fields R status message :
  statusCode (error_response R status message) = status
  /\ headers (error_response R status message) = [("Content-Type", "application/json")]
  /\ body (error_response R status message)
     = "{" ++ quoted "error" ++ ": " ++ json_string message ++ "}".
Proof. repeat split. Qed.

(** ** Client errors *)

(** C6. When the parsed body yields no url (the key is absent, its value
    is [None], or its value is the empty string) the handler answers 400
    with [{"error": "URL is required"}]; the world is returned as it was,
    so the collaborator was not called. *)
Theorem missing_url_is_400 R Y event items w :
  request_body R event = Returns (PDict items) ->
  dict_lookup items "url" = None
  \/ dict_lookup items "url" = Some PNone
  \/ dict_lookup items "url" = Some (PStr "") ->
  lambda_handler R Y event w = (error_response R 400 "URL is required", w).
Proof.
  intros Hbody Hurl. unfold lambda_handler, catch_all.
  rewrite (lambda_handler_try_parsed _ _ _ _ _ Hbody).
  assert (truthy (url_of items) = false) as ->; [|reflexivity].
  unfold url_of, dict_get.
  destruct Hurl as [-> | [-> | ->]]; reflexivity.
Qed.

Lemma missing_url_is_400_witness :
  lambda_handler stub_runtime stub_A (PDict [("url", PStr ""); ("action", PStr "download")])
    empty_world
  = (error_response stub_runtime 400 "URL is required", empty_world).
Proof.
  apply (missing_url_is_400 stub_runtime stub_A _
           [("url", PStr ""); ("action", PStr "download")]).
  - reflexivity.
  - right; right; reflexivity.
Defined.

(** C7. A non-empty url string in which neither marker occurs is answered
    400 with [{"error": "Invalid YouTube URL"}] and the world is left as it
    was; a url string in which a marker occurs anywhere passes both checks
    and the handler goes on to the dispatch on [action]. *)
Theorem host_marker_validation R Y event items s w :
  request_body R event = Returns (PDict items) ->
  dict_lookup items "url" = Some (PStr s) ->
  (s <> "" -> ~ recognized_host s ->
   lambda_handler R Y event w = (error_response R 400 "Invalid YouTube URL", w))
  /\ (recognized_host s ->
      passes_validation (PStr s)
      /\ lambda_handler R Y event w
         = catch_all R (dispatch R Y (PStr s) (action_of items) (format_of items)) w).
Proof.
  intros Hbody Hurl.
  assert (url_of items = PStr s) as Hu by (unfold url_of, dict_get; now rewrite Hurl).
  split.
  - intros Hne Hnot. unfold lambda_handler, catch_all.
    rewrite (lambda_handler_try_parsed _ _ _ _ _ Hbody), Hu.
    assert (truthy (PStr s) = true) as ->.
    { simpl. destruct (String.eqb_spec s ""); [contradiction | reflexivity]. }
    apply is_youtube_url_unrecognized in Hnot.
    unfold bind, lift. rewrite Hnot. reflexivity.
  - intros Hrec.
    assert (passes_validation (PStr s)) as Hpass.
    { split; [|now apply is_youtube_url_recognized].
      simpl. destruct (String.eqb_spec s "") as [-> | _]; [|reflexivity].
      apply is_youtube_url_recognized in Hrec. discriminate Hrec. }
    split; [exact Hpass |].
    unfold lambda_handler, catch_all.
    rewrite <- Hu in Hpass |- *.
    now rewrite (lambda_handler_try_validated _ _ _ _ _ Hbody Hpass).
Qed.

Lemma host_marker_validation_witness :
  lambda_handler stub_runtime stub_A
    (PDict [("url", PStr "not-a-video-url"); ("action", PStr "info")]) empty_world
  = (error_response stub_runtime 400 "Invalid YouTube URL", empty_world).
Proof.
  refine (proj1 (host_marker_validation stub_runtime stub_A _
                   [("url", PStr "not-a-video-url"); ("action", PStr "info")]
                   "not-a-video-url" empty_world _ _) _ _).
  - reflexivity.
  - reflexivity.
  - discriminate.
  - apply is_youtube_url_unrecognized. reflexivity.
Defined.

(** C8, as stated, fails: the action check comes last, so a request with
    an action outside info and download and no url is answered
    "URL is required", not "Invalid action". *)
Lemma invalid_action_counterexample :
  let event := PDict [("action", PStr "bogus")] in
  request_body stub_runtime event = Returns event
  /\ action_of [("action", PStr "bogus")] <> PStr "info"
  /\ action_of [("action", PStr "bogus")] <> PStr "download"
  /\ fst (lambda_handler stub_runtime stub_A event empty_world)
     = error_response stub_runtime 400 "URL is required"
  /\ fst (lambda_handler stub_runtime stub_A event empty_world)
     <> error_response stub_runtime 400 "Invalid action".
Proof. repeat split; discriminate. Qed.

(** C8, amended. When the url passes validation and the action is neither
    'info' nor 'download', the handler answers 400 with
    [{"error": "Invalid action"}]; the world is returned as it was, so the
    collaborator was not called. *)
Theorem invalid_action_is_400 R Y event items w :
  request_body R event = Returns (PDict items) ->
  passes_validation (url_of items) ->
  action_of items <> PStr "info" ->
  action_of items <> PStr "download" ->
  lambda_handler R Y event w = (error_response R 400 "Invalid action", w).
Proof.
  intros Hbody Hpass Hinfo Hdown. unfold lambda_handler, catch_all.
  rewrite (lambda_handler_try_validated _ _ _ _ _ Hbody Hpass).
  apply py_eq_str_false in Hinfo, Hdown.
  unfold dispatch. rewrite Hinfo, Hdown. reflexivity.
Qed.

Lemma invalid_action_is_400_witness :
  lambda_handler stub_runtime stub_A
    (PDict [("url", PStr "https://youtu.be/abc123"); ("action", PInt 7)]) empty_world
  = (error_response stub_runtime 400 "Invalid action", empty_world).
Proof.
  apply (invalid_action_is_400 stub_runtime stub_A _
           [("url", PStr "https://youtu.be/abc123"); ("action", PInt 7)]).
  - reflexivity.
  - split; reflexivity.
  - discriminate.
  - discriminate.
Defined.

(** The three 400 answers and the other answers are told apart by their
    status and body. *)
Lemma get_video_info_status R Y url w r w' :
  get_video_info R Y url w = (Returns r, w') -> statusCode r = 200.
Proof.
  unfold get_video_info, bind, lift, ret, extract_info.
  destruct (ydl_extract_info Y _ url false) as [info|e]; [|discriminate].
  repeat match goal with
         | |- context [py_get ?o ?k ?d] => destruct (py_get o k d); [|discriminate]
         end.
  destruct (py_len _); [|discriminate].
  now intros [= <- _].
Qed.

(** What the block under [with tempfile.TemporaryDirectory()] does, path
    by path.  Whatever the path, the world it leaves is the one the
    collaborator's download left. *)
Lemma download_body_run R Y url format_type temp_dir w :
  let ydl_opts :=
    download_opts format_type
      (os_path_join temp_dir ("video." ++ py_str R format_type)) in
  let w1 := World (snd (ydl_download Y ydl_opts [url] (fs w)))
                  (trace w ++ [CallDownload ydl_opts [url]]) in
  download_body R Y url format_type temp_dir w
  = match fst (ydl_download Y ydl_opts [url] (fs w)) with
    | Raises e => (Raises e, w1)
    | Returns _ =>
        match fs w1 !! temp_dir with
        | None =>
            (Raises (Exn "FileNotFoundError"
                         ("[Errno 2] No such file or directory: "
                          ++ py_repr R (PStr temp_dir))), w1)
        | Some [] => (Raises (Exception "Download failed - no file created"), w1)
        | Some (file0 :: _) =>
            match entry_read file0 with
            | Raises e => (Raises e, w1)
            | Returns file_data =>
                (Returns
                   (Response 200 json_headers
                      (json_dumps R
                         (PDict [("file_data", PStr (b64encode file_data));
                                 ("filename", PStr (entry_name file0));
                                 ("content_type", PStr (content_type format_type))]))),
                 w1)
            end
        end
    end.
Proof.
  intros ydl_opts w1. unfold download_body, bind, download.
  fold ydl_opts. subst w1.
  destruct (ydl_download Y ydl_opts [url] (fs w)) as [[[]|e] files']; [|reflexivity].
  cbn [fst snd]. unfold os_listdir. cbn [fs].
  destruct (files' !! temp_dir) as [[|file0 rest]|] eqn:Hdir; [reflexivity | | reflexivity].
  cbn [List.map]. unfold read_file. cbn [fs]. rewrite Hdir.
  cbn [find]. rewrite String.eqb_refl.
  destruct (entry_read file0); reflexivity.
Qed.

Lemma download_video_status R Y url format_type w r w' :
  download_video R Y url format_type w = (Returns r, w') -> statusCode r = 200.
Proof.
  unfold download_video, with_TemporaryDirectory.
  rewrite download_body_run. cbv zeta.
  destruct (fst (ydl_download Y _ _ _)); [|discriminate].
  destruct (_ !! _) as [[|file0 rest]|]; try discriminate.
  destruct (entry_read file0); [|discriminate].
  now intros [= <- _].
Qed.

(** C10. The checks run in the order url presence, host marker, action:
    without a url the answer is "URL is required" whatever the action;
    with a url that fails the marker test it is "Invalid YouTube URL"
    whatever the action; and "Invalid action" is answered only when the
    body parsed, its url passes both checks, and the action is neither
    'info' nor 'download'. *)
Theorem check_precedence R Y event w :
  (forall items,
     request_body R event = Returns (PDict items) ->
     truthy (url_of items) = false ->
     lambda_handler R Y event w = (error_response R 400 "URL is required", w))
  /\ (forall items,
        request_body R event = Returns (PDict items) ->
        truthy (url_of items) = true ->
        is_youtube_url (url_of items) = Returns false ->
        lambda_handler R Y event w = (error_response R 400 "Invalid YouTube URL", w))
  /\ (fst (lambda_handler R Y event w) = error_response R 400 "Invalid action" ->
      exists items,
        request_body R event = Returns (PDict items)
        /\ passes_validation (url_of items)
        /\ action_of items <> PStr "info"
        /\ action_of items <> PStr "download").
Proof.
  split; [|split].
  - intros items Hbody Hfalsy. unfold lambda_handler, catch_all.
    rewrite (lambda_handler_try_parsed _ _ _ _ _ Hbody), Hfalsy. reflexivity.
  - intros items Hbody Htruthy Hinvalid. unfold lambda_handler, catch_all.
    rewrite (lambda_handler_try_parsed _ _ _ _ _ Hbody), Htruthy.
    unfold bind, lift. rewrite Hinvalid. reflexivity.
  - unfold lambda_handler, catch_all.
    destruct (request_body R event) as [[| | | | | |items]|e] eqn:Hbody;
      try (unfold lambda_handler_try, bind, lift; rewrite Hbody; simpl; discriminate).
    rewrite (lambda_handler_try_parsed _ _ _ _ _ Hbody).
    destruct (truthy (url_of items)) eqn:Htruthy; simpl; [|discriminate].
    unfold bind at 1, lift.
    destruct (is_youtube_url (url_of items)) as [[|]|e] eqn:Hvalid; simpl;
      try discriminate.
    intros Hresp. exists items. split; [reflexivity|]. split; [now split|].
    unfold dispatch in Hresp.
    destruct (py_eq_str (action_of items) "info") eqn:Hinfo.
    { exfalso. destruct (get_video_info _ _ _ _) as [[r|e] w'] eqn:Hrun.
      - apply get_video_info_status in Hrun. simpl in Hresp.
        rewrite Hresp in Hrun. discriminate Hrun.
      - discriminate Hresp. }
    destruct (py_eq_str (action_of items) "download") eqn:Hdown.
    { exfalso. destruct (download_video _ _ _ _ _) as [[r|e] w'] eqn:Hrun.
      - apply download_video_status in Hrun. simpl in Hresp.
        rewrite Hresp in Hrun. discriminate Hrun.
      - discriminate Hresp. }
    now apply py_eq_str_false in Hinfo, Hdown.
Qed.

Lemma check_precedence_witness :
  lambda_handler stub_runtime stub_A (PDict [("action", PStr "bogus")]) empty_world
  = (error_response stub_runtime 400 "URL is required", empty_world)
  /\ lambda_handler stub_runtime stub_A
       (PDict [("url", PStr "not-a-video-url"); ("action", PStr "bogus")]) empty_world
     = (error_response stub_runtime 400 "Invalid YouTube URL", empty_world).
Proof.
  split.
  - apply (proj1 (check_precedence stub_runtime stub_A _ empty_world)
             [("action", PStr "bogus")]); reflexivity.
  - apply (proj1 (proj2 (check_precedence stub_runtime stub_A _ empty_world))
             [("url", PStr "not-a-video-url"); ("action", PStr "bogus")]); reflexivity.
Defined.

(** ** The info path *)

(** The info path is one call of the collaborator, with [download=False];
    what it answers decides the rest, and the file system is not touched. *)
Lemma get_video_info_world R Y url w :
  snd (get_video_info R Y url w)
  = World (fs w) (trace w ++ [CallExtractInfo info_opts url false]).
Proof.
  unfold get_video_info, bind, lift, ret, extract_info, log.
  fold info_opts.
  destruct (ydl_extract_info Y info_opts url false) as [info|e]; [|reflexivity].
  repeat match goal with
         | |- context [py_get ?o ?k ?d] => destruct (py_get o k d); [|reflexivity]
         end.
  destruct (py_len _); reflexivity.
Qed.

Lemma extraction_failure_surfaces R Y url e w :
  ydl_extract_info Y info_opts url false = Raises e ->
  get_video_info R Y url w
  = (Raises e, World (fs w) (trace w ++ [CallExtractInfo info_opts url false])).
Proof.
  intros Hfail. unfold get_video_info, bind, extract_info, log.
  fold info_opts. rewrite Hfail. reflexivity.
Qed.

(** When the probe answers a dict whose formats are a list, the response
    is 200 and repeats the five fields, with the length of that list. *)
Lemma get_video_info_returns R Y url info formats w :
  ydl_extract_info Y info_opts url false = Returns (PDict info) ->
  dict_get info "formats" (PList []) = PList formats ->
  fst (get_video_info R Y url w)
  = Returns
      (Response 200 json_headers
         (json_dumps R
            (PDict [("title", dict_get info "title" (PStr "Unknown"));
                    ("thumbnail", dict_get info "thumbnail" PNone);
                    ("duration", dict_get info "duration" PNone);
                    ("uploader", dict_get info "uploader" PNone);
                    ("view_count", dict_get info "view_count" PNone);
                    ("formats_available", PInt (Z.of_nat (List.length formats)))]))).
Proof.
  intros Hinfo Hformats. unfold get_video_info, bind, extract_info.
  fold info_opts. rewrite Hinfo. unfold lift, py_get. rewrite Hformats.
  reflexivity.
Qed.

Lemma action_defaults_to_info (items : list (string * pyval)) :
  dict_lookup items "action" = None -> action_of items = PStr "info".
Proof. intros H. unfold action_of, dict_get. now rewrite H. Qed.

(** C2. Scenario A: for the event
    [{"url": "https://youtu.be/abc123", "action": "info"}] and a
    collaborator whose metadata probe answers title T, thumbnail th,
    duration 120, uploader U, view_count 5 and three formats, the handler
    answers 200 and its body is the serialisation of the object with those
    five fields and [formats_available] 3, the length of the formats
    list. *)
Theorem scenario_A_response R Y w :
  ydl_extract_info Y info_opts (PStr "https://youtu.be/abc123") false
  = Returns scenario_A_info ->
  let r := fst (lambda_handler R Y scenario_A_event w) in
  statusCode r = 200
  /\ headers r = [("Content-Type", "application/json")]
  /\ body r = json_dumps R scenario_A_object
  /\ body r = scenario_A_body.
Proof.
  intros Hinfo.
  unfold lambda_handler, catch_all.
  rewrite (lambda_handler_try_validated R Y scenario_A_event
             [("url", PStr "https://youtu.be/abc123"); ("action", PStr "info")]);
    [| reflexivity | split; reflexivity].
  change (dispatch R Y _ _ _ w)
    with (get_video_info R Y (PStr "https://youtu.be/abc123") w).
  pose proof (get_video_info_returns R Y _ _ [PInt 1; PInt 2; PInt 3] w Hinfo eq_refl)
    as Hrun.
  destruct (get_video_info R Y _ w) as [res w1]. simpl in Hrun. subst res.
  repeat split.
Qed.

Lemma scenario_A_response_witness :
  body (fst (lambda_handler stub_runtime stub_A scenario_A_event empty_world))
  = scenario_A_body.
Proof.
  refine (proj2 (proj2 (proj2 (scenario_A_response stub_runtime stub_A empty_world _)))).
  reflexivity.
Defined.

(** C5. For a request whose url passes validation and whose action is
    'info', given or defaulted, the handler's only request to its
    surroundings is one call of the collaborator's [extract_info] with
    [download=False]: no download call, no temporary directory, and the
    file system is as it was. *)
Theorem info_never_downloads R Y event items w :
  request_body R event = Returns (PDict items) ->
  passes_validation (url_of items) ->
  dict_lookup items "action" = None \/ dict_lookup items "action" = Some (PStr "info") ->
  let w' := snd (lambda_handler R Y event w) in
  trace w' = (trace w ++ [CallExtractInfo info_opts (url_of items) false])%list
  /\ fs w' = fs w.
Proof.
  intros Hbody Hpass Haction.
  assert (action_of items = PStr "info") as Hinfo.
  { unfold action_of, dict_get. now destruct Haction as [-> | ->]. }
  pose proof (get_video_info_world R Y (url_of items) w) as Hworld.
  unfold lambda_handler, catch_all.
  rewrite (lambda_handler_try_validated _ _ _ _ _ Hbody Hpass).
  unfold dispatch. rewrite Hinfo. simpl.
  destruct (get_video_info R Y (url_of items) w) as [[r|e] w1];
    simpl in *; subst w1; split; reflexivity.
Qed.

Lemma info_never_downloads_witness :
  trace (snd (lambda_handler stub_runtime stub_A
                (PDict [("url", PStr "https://www.youtube.com/watch?v=abc123")])
                empty_world))
  = [CallExtractInfo info_opts (PStr "https://www.youtube.com/watch?v=abc123") false].
Proof.
  refine (proj1 (info_never_downloads stub_runtime stub_A _
                   [("url", PStr "https://www.youtube.com/watch?v=abc123")]
                   empty_world _ _ _)).
  - reflexivity.
  - split; reflexivity.
  - left; reflexivity.
Defined.

(** ** The download path *)

(** [download_video] is the block run between the creation and the
    removal of the temporary directory; the removal comes last whatever
    the block did. *)
Lemma download_video_run R Y url format_type w :
  let temp_dir := mkdtemp R (fs w) in
  let ydl_opts := ydl_opts_in R format_type temp_dir in
  let ran := ydl_download Y ydl_opts [url] (files_at_download R w) in
  let w' := World (delete temp_dir (snd ran))
                  (trace w ++ [MakeTempDir temp_dir; CallDownload ydl_opts [url];
                               RemoveTempDir temp_dir]) in
  download_video R Y url format_type w
  = match fst ran with
    | Raises e => (Raises e, w')
    | Returns _ =>
        match snd ran !! temp_dir with
        | None =>
            (Raises (Exn "FileNotFoundError"
                         ("[Errno 2] No such file or directory: "
                          ++ py_repr R (PStr temp_dir))), w')
        | Some [] => (Raises (Exception "Download failed - no file created"), w')
        | Some (file0 :: _) =>
            match entry_read file0 with
            | Raises e => (Raises e, w')
            | Returns file_data =>
                (Returns
                   (Response 200 json_headers
                      (json_dumps R
                         (PDict [("file_data", PStr (b64encode file_data));
                                 ("filename", PStr (entry_name file0));
                                 ("content_type", PStr (content_type format_type))]))),
                 w')
            end
        end
    end.
Proof.
  intros temp_dir ydl_opts ran w'.
  unfold download_video, with_TemporaryDirectory.
  rewrite download_body_run. cbv zeta. cbn [fs trace].
  fold temp_dir. fold (files_at_download R w).
  fold (ydl_opts_in R format_type temp_dir). fold ydl_opts. fold ran.
  change (ydl_download Y ydl_opts [url] (<[temp_dir:=[]]> (fs w))) with ran.
  subst w'.
  destruct (fst ran);
    [destruct (snd ran !! temp_dir) as [[|file0 rest]|];
       [| destruct (entry_read file0) |] |];
    cbn [fs trace]; now rewrite <- !app_assoc.
Qed.

(** C4. Whatever way [download_video] is left (a response, the
    empty-directory failure, an exception of the collaborator, of the
    listing or of the file read) the temporary directory of the invocation
    is gone from the file system, and its removal is the last thing that
    happened. *)
Theorem temporary_directory_removed R Y url format_type w :
  let temp_dir := mkdtemp R (fs w) in
  let w' := snd (download_video R Y url format_type w) in
  fs w' !! temp_dir = None
  /\ trace w'
     = (trace w ++ [MakeTempDir temp_dir;
                    CallDownload (ydl_opts_in R format_type temp_dir) [url];
                    RemoveTempDir temp_dir])%list.
Proof.
  intros temp_dir w'. subst w'. rewrite download_video_run. cbv zeta.
  fold temp_dir.
  set (ran := ydl_download Y _ _ _).
  destruct (fst ran);
    [destruct (snd ran !! temp_dir) as [[|file0 rest]|];
       [| destruct (entry_read file0) |] |];
    cbn [snd fs trace]; (split; [apply lookup_delete_eq | reflexivity]).
Qed.

(** The four exits of [download_video], each on a concrete run. *)
Example exit_by_return :
  let Y := stub_writer "/tmp/tmpk3v9x2" [Entry "video.mp4" (Returns ["M"; "a"; "n"]%byte)] in
  let run := download_video stub_runtime Y (PStr "https://youtu.be/abc123") (PStr "mp4")
               empty_world in
  fst run
  = Returns (Response 200 json_headers
               ("{" ++ quoted "file_data" ++ ": " ++ quoted "TWFu" ++ ", "
                    ++ quoted "filename" ++ ": " ++ quoted "video.mp4" ++ ", "
                    ++ quoted "content_type" ++ ": " ++ quoted "video/mp4" ++ "}"))
  /\ fs (snd run) !! "/tmp/tmpk3v9x2" = None.
Proof. split; reflexivity. Qed.

Example exit_by_empty_directory :
  let run := download_video stub_runtime (stub_writer "/tmp/tmpk3v9x2" [])
               (PStr "https://youtu.be/abc123") (PStr "mp4") empty_world in
  fst run = Raises (Exception "Download failed - no file created")
  /\ fs (snd run) !! "/tmp/tmpk3v9x2" = None.
Proof. split; reflexivity. Qed.

Example exit_by_collaborator_exception :
  let run := download_video stub_runtime (stub_failing (Exn "DownloadError" "Video unavailable"))
               (PStr "https://youtu.be/abc123") (PStr "mp4") empty_world in
  fst run = Raises (Exn "DownloadError" "Video unavailable")
  /\ fs (snd run) !! "/tmp/tmpk3v9x2" = None.
Proof. split; reflexivity. Qed.

Example exit_by_read_exception :
  let denied := Exn "PermissionError" "[Errno 13] Permission denied" in
  let run := download_video stub_runtime
               (stub_writer "/tmp/tmpk3v9x2" [Entry "video.mp4" (Raises denied)])
               (PStr "https://youtu.be/abc123") (PStr "mp4") empty_world in
  fst run = Raises denied
  /\ fs (snd run) !! "/tmp/tmpk3v9x2" = None.
Proof. split; reflexivity. Qed.

(** C3. On a download request (the url passes validation, the action is
    'download') for which the collaborator's download returns and the
    temporary directory is then empty, the handler answers 500 and the
    error of its body is "Download failed - no file created". *)
Theorem empty_download_is_500 R Y event items w :
  request_body R event = Returns (PDict items) ->
  passes_validation (url_of items) ->
  action_of items = PStr "download" ->
  let temp_dir := mkdtemp R (fs w) in
  let ran := ydl_download Y (ydl_opts_in R (format_of items) temp_dir) [url_of items]
               (files_at_download R w) in
  fst ran = Returns tt ->
  snd ran !! temp_dir = Some [] ->
  let r := fst (lambda_handler R Y event w) in
  r = error_response R 500 "Download failed - no file created"
  /\ statusCode r = 500
  /\ has_substring "Download failed - no file created" (body r).
Proof.
  intros Hbody Hpass Haction temp_dir ran Hran Hempty r.
  assert (r = error_response R 500 "Download failed - no file created") as ->.
  { subst r. enter_dispatch Hbody Hpass Haction.
    rewrite download_video_run. cbv zeta. fold temp_dir. fold ran.
    rewrite Hran, Hempty. reflexivity. }
  repeat split.
  exists ("{" ++ quoted "error" ++ ": " ++ dquote), (dquote ++ "}"). reflexivity.
Qed.

Lemma empty_download_is_500_witness :
  statusCode (fst (lambda_handler stub_runtime (stub_writer "/tmp/tmpk3v9x2" [])
                     (download_event "mp3") empty_world)) = 500.
Proof.
  refine (proj1 (proj2 (empty_download_is_500 stub_runtime (stub_writer "/tmp/tmpk3v9x2" [])
                          (download_event "mp3")
                          [("url", PStr "https://youtu.be/abc123");
                           ("action", PStr "download"); ("format", PStr "mp3")]
                          empty_world _ _ _ _ _))).
  - reflexivity.
  - split; reflexivity.
  - reflexivity.
  - reflexivity.
  - reflexivity.
Defined.

(** ** The catch-all *)

(** The stages the exceptions come from, one by one: each ends the [try]
    block, so each is answered 500 with its own text. *)
Lemma body_parsing_exception R Y event e w :
  request_body R event = Raises e ->
  lambda_handler R Y event w = (error_response R 500 (exn_str e), w).
Proof.
  intros Hbody. unfold lambda_handler, catch_all.
  now rewrite (parse_failure_surfaces _ _ _ _ _ Hbody).
Qed.

Lemma extraction_exception R Y event items e w :
  request_body R event = Returns (PDict items) ->
  passes_validation (url_of items) ->
  action_of items = PStr "info" ->
  ydl_extract_info Y info_opts (url_of items) false = Raises e ->
  fst (lambda_handler R Y event w) = error_response R 500 (exn_str e).
Proof.
  intros Hbody Hpass Haction Hfail. enter_dispatch Hbody Hpass Haction.
  now rewrite (extraction_failure_surfaces _ _ _ _ _ Hfail).
Qed.

Lemma download_exception R Y event items e w :
  request_body R event = Returns (PDict items) ->
  passes_validation (url_of items) ->
  action_of items = PStr "download" ->
  fst (ydl_download Y (ydl_opts_in R (format_of items) (mkdtemp R (fs w)))
         [url_of items] (files_at_download R w)) = Raises e ->
  fst (lambda_handler R Y event w) = error_response R 500 (exn_str e).
Proof.
  intros Hbody Hpass Haction Hfail. enter_dispatch Hbody Hpass Haction.
  rewrite download_video_run. cbv zeta. now rewrite Hfail.
Qed.

Lemma file_read_exception R Y event items file0 rest e w :
  request_body R event = Returns (PDict items) ->
  passes_validation (url_of items) ->
  action_of items = PStr "download" ->
  let ran := ydl_download Y (ydl_opts_in R (format_of items) (mkdtemp R (fs w)))
               [url_of items] (files_at_download R w) in
  fst ran = Returns tt ->
  snd ran !! mkdtemp R (fs w) = Some (file0 :: rest) ->
  entry_read file0 = Raises e ->
  fst (lambda_handler R Y event w) = error_response R 500 (exn_str e).
Proof.
  intros Hbody Hpass Haction ran Hran Hdir Hread. enter_dispatch Hbody Hpass Haction.
  rewrite download_video_run. cbv zeta. fold ran. now rewrite Hran, Hdir, Hread.
Qed.

(** ** The content type of a download *)

(** The label is 'video/mp4' for 'mp4' alone. *)
Lemma content_type_mp4 (format_type : pyval) :
  format_type = PStr "mp4" -> content_type format_type = "video/mp4".
Proof. now intros ->. Qed.

Lemma content_type_not_mp4 (format_type : pyval) :
  format_type <> PStr "mp4" -> content_type format_type = "audio/mpeg".
Proof.
  intros Hne. apply py_eq_str_false in Hne. unfold content_type. now rewrite Hne.
Qed.

(** The download options are the audio ones for 'mp3' alone. *)
Lemma download_opts_not_mp3 (format_type : pyval) (output_path : string) :
  format_type <> PStr "mp3" ->
  download_opts format_type output_path
  = PDict [("format", PStr "best[ext=mp4]/best");
           ("outtmpl", PStr output_path);
           ("quiet", PBool true)].
Proof.
  intros Hne. apply py_eq_str_false in Hne. unfold download_opts. now rewrite Hne.
Qed.

(** A download that succeeds answers 200 with the first listed file and
    the label [content_type] gives for the request's format. *)
Lemma download_response R Y event items file0 rest file_data w :
  request_body R event = Returns (PDict items) ->
  passes_validation (url_of items) ->
  action_of items = PStr "download" ->
  let ran := ydl_download Y (ydl_opts_in R (format_of items) (mkdtemp R (fs w)))
               [url_of items] (files_at_download R w) in
  fst ran = Returns tt ->
  snd ran !! mkdtemp R (fs w) = Some (file0 :: rest) ->
  entry_read file0 = Returns file_data ->
  fst (lambda_handler R Y event w)
  = Response 200 json_headers
      (json_dumps R (PDict [("file_data", PStr (b64encode file_data));
                            ("filename", PStr (entry_name file0));
                            ("content_type", PStr (content_type (format_of items)))])).
Proof.
  intros Hbody Hpass Haction ran Hran Hdir Hread. enter_dispatch Hbody Hpass Haction.
  rewrite download_video_run. cbv zeta. fold ran. now rewrite Hran, Hdir, Hread.
Qed.

(** C1, at the input where it fails: for format 'webm' the collaborator
    is asked for the best mp4 video, as for every format that is not
    'mp3', and the response labels the file 'audio/mpeg', not
    'video/mp4'. *)
Theorem webm_download_labelled_audio :
  let Y := stub_writer "/tmp/tmpk3v9x2" [Entry "video.webm" (Returns ["M"; "a"; "n"]%byte)] in
  let run := lambda_handler stub_runtime Y (download_event "webm") empty_world in
  fst run
  = Response 200 [("Content-Type", "application/json")]
      ("{" ++ quoted "file_data" ++ ": " ++ quoted "TWFu" ++ ", "
           ++ quoted "filename" ++ ": " ++ quoted "video.webm" ++ ", "
           ++ quoted "content_type" ++ ": " ++ quoted "audio/mpeg" ++ "}")
  /\ trace (snd run)
     = [MakeTempDir "/tmp/tmpk3v9x2";
        CallDownload (PDict [("format", PStr "best[ext=mp4]/best");
                             ("outtmpl", PStr "/tmp/tmpk3v9x2/video.webm");
                             ("quiet", PBool true)])
                     [PStr "https://youtu.be/abc123"];
        RemoveTempDir "/tmp/tmpk3v9x2"].
Proof. split; reflexivity. Qed.

(** * Further properties of the handler *)

(** ** Every invocation takes one of six paths *)

Lemma handler_paths R Y event w : handler_path R Y event w.
Proof.
  destruct (request_body R event) as [parsed|e] eqn:Hbody.
  2: { apply (Path_early_exception _ _ _ _ e).
       now apply parse_failure_surfaces. }
  destruct parsed as [| | | | | |items];
    try (eapply Path_early_exception;
         unfold lambda_handler_try, bind, lift; rewrite Hbody; reflexivity).
  pose proof (lambda_handler_try_parsed R Y event items w Hbody) as Hrun.
  destruct (truthy (url_of items)) eqn:Htruthy; cbn [negb] in Hrun.
  2: { now apply (Path_url_required _ _ _ _ items). }
  unfold bind, lift in Hrun.
  destruct (is_youtube_url (url_of items)) as [[|]|e] eqn:Hvalid; cbn [negb] in Hrun.
  - unfold dispatch in Hrun.
    destruct (py_eq_str (action_of items) "info") eqn:Hinfo.
    { apply py_eq_str_true in Hinfo. now apply (Path_info _ _ _ _ items). }
    destruct (py_eq_str (action_of items) "download") eqn:Hdown.
    { apply py_eq_str_true in Hdown. now apply (Path_download _ _ _ _ items). }
    apply py_eq_str_false in Hinfo, Hdown.
    now apply (Path_invalid_action _ _ _ _ items).
  - now apply (Path_invalid_url _ _ _ _ items).
  - now apply (Path_early_exception _ _ _ _ e).
Qed.

(** What the two paths of the dispatch answer when they answer. *)
Lemma get_video_info_envelope R Y url w r w' :
  get_video_info R Y url w = (Returns r, w') ->
  statusCode r = 200 /\ headers r = json_headers.
Proof.
  unfold get_video_info, bind, lift, ret, extract_info.
  destruct (ydl_extract_info Y _ url false) as [info|e]; [|discriminate].
  repeat match goal with
         | |- context [py_get ?o ?k ?d] => destruct (py_get o k d); [|discriminate]
         end.
  destruct (py_len _); [|discriminate].
  now intros [= <- _].
Qed.

Lemma download_video_envelope R Y url format_type w r w' :
  download_video R Y url format_type w = (Returns r, w') ->
  statusCode r = 200 /\ headers r = json_headers.
Proof.
  rewrite download_video_run. cbv zeta.
  set (ran := ydl_download Y _ _ _).
  destruct (fst ran); [|discriminate].
  destruct (snd ran !! _) as [[|file0 rest]|]; try discriminate.
  destruct (entry_read file0); [|discriminate].
  now intros [= <- _].
Qed.

Lemma download_video_world R Y url format_type w :
  let temp_dir := mkdtemp R (fs w) in
  let ydl_opts := ydl_opts_in R format_type temp_dir in
  snd (download_video R Y url format_type w)
  = World (delete temp_dir (snd (ydl_download Y ydl_opts [url] (files_at_download R w))))
          (trace w ++ [MakeTempDir temp_dir; CallDownload ydl_opts [url];
                       RemoveTempDir temp_dir]).
Proof.
  intros temp_dir ydl_opts. rewrite download_video_run. cbv zeta.
  fold temp_dir. fold ydl_opts.
  set (ran := ydl_download Y _ _ _).
  destruct (fst ran);
    [destruct (snd ran !! temp_dir) as [[|file0 rest]|];
       [| destruct (entry_read file0) |] |];
    reflexivity.
Qed.

(** Opens the handler on each of its six paths; [Hrun] names the run of
    the [try] block. *)
Ltac on_each_path R Y event w Hrun :=
  unfold lambda_handler, catch_all;
  destruct (handler_paths R Y event w)
    as [e Hrun
       | items' Hbody' Hfalsy' Hrun
       | items' Hbody' Htruthy' Hinvalid' Hrun
       | items' Hbody' Hpass' Haction' Hrun
       | items' Hbody' Hpass' Haction' Hrun
       | items' Hbody' Hpass' Hinfo' Hdown' Hrun];
  rewrite Hrun.

(** ** The response envelope *)

(** X1. Whatever the event, the response carries the JSON content-type
    header alone and its status is 200, 400 or 500. *)
Theorem response_envelope R Y event w :
  let r := fst (lambda_handler R Y event w) in
  headers r = [("Content-Type", "application/json")]
  /\ (statusCode r = 200 \/ statusCode r = 400 \/ statusCode r = 500).
Proof.
  cbv zeta. on_each_path R Y event w Hrun; cbn [fst];
    try (split; [reflexivity | auto]).
  - destruct (get_video_info R Y _ w) as [[r|e] w1] eqn:Hinfo; cbn [fst].
    + apply get_video_info_envelope in Hinfo as [-> ->]. auto.
    + split; [reflexivity | auto].
  - destruct (download_video R Y _ _ w) as [[r|e] w1] eqn:Hdown; cbn [fst].
    + apply download_video_envelope in Hdown as [-> ->]. auto.
    + split; [reflexivity | auto].
Qed.

(** ** What an invocation does to its surroundings *)

(** X2. An invocation does one of three things: nothing at all; exactly
    one metadata probe ([download=False]) with the file system untouched;
    or exactly one download call between the creation and the removal of
    one temporary directory, which is gone at the end.  It never calls the
    collaborator twice, and never probes and downloads in one run. *)
Theorem invocation_effects R Y event w :
  let w' := snd (lambda_handler R Y event w) in
  w' = w
  \/ (exists url,
        fs w' = fs w
        /\ trace w' = (trace w ++ [CallExtractInfo info_opts url false])%list)
  \/ (exists url format_type,
        let temp_dir := mkdtemp R (fs w) in
        fs w' !! temp_dir = None
        /\ trace w'
           = (trace w ++ [MakeTempDir temp_dir;
                          CallDownload (ydl_opts_in R format_type temp_dir) [url];
                          RemoveTempDir temp_dir])%list).
Proof.
  cbv zeta. on_each_path R Y event w Hrun; cbn [snd]; auto.
  - right; left. exists (url_of items').
    pose proof (get_video_info_world R Y (url_of items') w) as Hworld.
    destruct (get_video_info R Y _ w) as [[r|e] w1]; cbn [snd] in *;
      subst w1; split; reflexivity.
  - right; right. exists (url_of items'), (format_of items').
    pose proof (download_video_world R Y (url_of items') (format_of items') w) as Hworld.
    cbv zeta in Hworld.
    destruct (download_video R Y _ _ w) as [[r|e] w1]; cbn [snd] in *;
      subst w1; cbn [fs trace]; (split; [apply lookup_delete_eq | reflexivity]).
Qed.

(** X3. A 400 is answered without any effect: the world is returned as it
    was, so no collaborator call was made and no directory created. *)
Theorem client_error_has_no_effect R Y event w :
  statusCode (fst (lambda_handler R Y event w)) = 400 ->
  snd (lambda_handler R Y event w) = w.
Proof.
  on_each_path R Y event w Hrun; cbn [fst snd]; try reflexivity.
  - destruct (get_video_info R Y _ w) as [[r|e] w1] eqn:Hinfo; cbn [fst snd].
    + apply get_video_info_envelope in Hinfo as [-> _]. discriminate.
    + discriminate.
  - destruct (download_video R Y _ _ w) as [[r|e] w1] eqn:Hdown; cbn [fst snd].
    + apply download_video_envelope in Hdown as [-> _]. discriminate.
    + discriminate.
Qed.

Lemma client_error_has_no_effect_witness :
  snd (lambda_handler stub_runtime stub_A
         (PDict [("url", PStr "https://example.com/watch")]) empty_world)
  = empty_world.
Proof.
  apply (client_error_has_no_effect stub_runtime stub_A
           (PDict [("url", PStr "https://example.com/watch")]) empty_world).
  reflexivity.
Defined.

(** X4. A 200 is answered only to a body that parsed into a dict, whose
    url passed both checks and whose action is 'info' or 'download'. *)
Theorem success_needs_validation R Y event w :
  statusCode (fst (lambda_handler R Y event w)) = 200 ->
  exists items,
    request_body R event = Returns (PDict items)
    /\ passes_validation (url_of items)
    /\ (action_of items = PStr "info" \/ action_of items = PStr "download").
Proof.
  on_each_path R Y event w Hrun; cbn [fst]; try discriminate;
    intros _; exists items'; auto.
Qed.

Lemma success_needs_validation_witness :
  exists items,
    request_body stub_runtime scenario_A_event = Returns (PDict items)
    /\ passes_validation (url_of items)
    /\ (action_of items = PStr "info" \/ action_of items = PStr "download").
Proof.
  apply (success_needs_validation stub_runtime stub_A scenario_A_event empty_world).
  reflexivity.
Defined.

(** ** What each client error says about the request *)

(** The answers of the two dispatch calls are never a 400. *)
Lemma info_answer_not_400 R Y url w message :
  fst (catch_all R (get_video_info R Y url) w) <> error_response R 400 message.
Proof.
  unfold catch_all.
  destruct (get_video_info R Y url w) as [[r|e] w1] eqn:Hinfo; cbn [fst].
  - apply get_video_info_envelope in Hinfo as [Hstatus _].
    intros ->. discriminate Hstatus.
  - discriminate.
Qed.

Lemma download_answer_not_400 R Y url format_type w message :
  fst (catch_all R (download_video R Y url format_type) w)
  <> error_response R 400 message.
Proof.
  unfold catch_all.
  destruct (download_video R Y url format_type w) as [[r|e] w1] eqn:Hdown; cbn [fst].
  - apply download_video_envelope in Hdown as [Hstatus _].
    intros ->. discriminate Hstatus.
  - discriminate.
Qed.

(** X5. On a body that parsed into a dict, the answer is the 400
    "URL is required" exactly when the url is falsy: besides absent,
    [None] and the empty string, that is [False], zero, an empty list and
    an empty dict. *)
Theorem url_required_iff_falsy R Y event items w :
  request_body R event = Returns (PDict items) ->
  fst (lambda_handler R Y event w) = error_response R 400 "URL is required"
  <-> truthy (url_of items) = false.
Proof.
  intros Hbody. split.
  - unfold lambda_handler.
    destruct (handler_paths R Y event w)
      as [e Hrun
         | items' Hbody' Hfalsy' Hrun
         | items' Hbody' Htruthy' Hinvalid' Hrun
         | items' Hbody' Hpass' Haction' Hrun
         | items' Hbody' Hpass' Haction' Hrun
         | items' Hbody' Hpass' Hinfo' Hdown' Hrun];
      try (rewrite Hbody in Hbody'; injection Hbody' as <-).
    + unfold catch_all. rewrite Hrun. discriminate.
    + trivial.
    + unfold catch_all. rewrite Hrun. discriminate.
    + unfold catch_all at 1. rewrite Hrun. fold (catch_all R (get_video_info R Y (url_of items)) w).
      intros H. now apply info_answer_not_400 in H.
    + unfold catch_all at 1. rewrite Hrun.
      fold (catch_all R (download_video R Y (url_of items) (format_of items)) w).
      intros H. now apply download_answer_not_400 in H.
    + unfold catch_all. rewrite Hrun. discriminate.
  - intros Hfalsy. unfold lambda_handler, catch_all.
    rewrite (lambda_handler_try_parsed _ _ _ _ _ Hbody), Hfalsy. reflexivity.
Qed.

Lemma url_required_iff_falsy_witness :
  fst (lambda_handler stub_runtime stub_A
         (PDict [("url", PInt 0); ("action", PStr "download")]) empty_world)
  = error_response stub_runtime 400 "URL is required".
Proof.
  apply (url_required_iff_falsy stub_runtime stub_A _
           [("url", PInt 0); ("action", PStr "download")] empty_world).
  - reflexivity.
  - reflexivity.
Defined.

(** X6. On a body that parsed into a dict, the answer is the 400
    "Invalid YouTube URL" exactly when the url is truthy and the marker
    test ran and found neither marker. *)
Theorem invalid_url_iff_no_marker R Y event items w :
  request_body R event = Returns (PDict items) ->
  fst (lambda_handler R Y event w) = error_response R 400 "Invalid YouTube URL"
  <-> truthy (url_of items) = true /\ is_youtube_url (url_of items) = Returns false.
Proof.
  intros Hbody. split.
  - unfold lambda_handler.
    destruct (handler_paths R Y event w)
      as [e Hrun
         | items' Hbody' Hfalsy' Hrun
         | items' Hbody' Htruthy' Hinvalid' Hrun
         | items' Hbody' Hpass' Haction' Hrun
         | items' Hbody' Hpass' Haction' Hrun
         | items' Hbody' Hpass' Hinfo' Hdown' Hrun];
      try (rewrite Hbody in Hbody'; injection Hbody' as <-).
    + unfold catch_all. rewrite Hrun. discriminate.
    + unfold catch_all. rewrite Hrun. discriminate.
    + auto.
    + unfold catch_all at 1. rewrite Hrun.
      fold (catch_all R (get_video_info R Y (url_of items)) w).
      intros H. now apply info_answer_not_400 in H.
    + unfold catch_all at 1. rewrite Hrun.
      fold (catch_all R (download_video R Y (url_of items) (format_of items)) w).
      intros H. now apply download_answer_not_400 in H.
    + unfold catch_all. rewrite Hrun. discriminate.
  - intros [Htruthy Hinvalid]. unfold lambda_handler, catch_all.
    rewrite (lambda_handler_try_parsed _ _ _ _ _ Hbody), Htruthy.
    unfold bind, lift. rewrite Hinvalid. reflexivity.
Qed.

Lemma invalid_url_iff_no_marker_witness :
  fst (lambda_handler stub_runtime stub_A
         (PDict [("url", PList [PStr "https://youtu.be/abc123"])]) empty_world)
  = error_response stub_runtime 400 "Invalid YouTube URL".
Proof.
  apply (invalid_url_iff_no_marker stub_runtime stub_A _
           [("url", PList [PStr "https://youtu.be/abc123"])] empty_world).
  - reflexivity.
  - split; reflexivity.
Defined.

(** ** Bodies and urls of the wrong shape *)

(** X7. A body that parses into anything but a dict (a list, a string, a
    number, [None]) is answered 500 with the text of the missing [get]
    attribute, not 400, and nothing else happens. *)
Theorem non_dict_body_is_500 R Y event parsed w :
  request_body R event = Returns parsed ->
  (forall items, parsed <> PDict items) ->
  lambda_handler R Y event w
  = (error_response R 500
       ("'" ++ type_name parsed ++ "' object has no attribute 'get'"), w).
Proof.
  intros Hbody Hshape. unfold lambda_handler, catch_all, lambda_handler_try, bind, lift.
  rewrite Hbody.
  destruct parsed; try reflexivity. now destruct (Hshape items).
Qed.

Lemma non_dict_body_is_500_witness :
  let R := stub_runtime_parsing (PList [PStr "https://youtu.be/abc123"]) in
  lambda_handler R stub_A (PDict [("body", PStr "[...]")]) empty_world
  = (error_response R 500 "'list' object has no attribute 'get'", empty_world).
Proof.
  apply (non_dict_body_is_500
           (stub_runtime_parsing (PList [PStr "https://youtu.be/abc123"])) stub_A
           (PDict [("body", PStr "[...]")]) (PList [PStr "https://youtu.be/abc123"])
           empty_world).
  - reflexivity.
  - discriminate.
Defined.

(** X8. Wrapping a request in a body envelope changes nothing: when the
    event's body is truthy and parses into a dict that has no truthy
    'body' of its own, the handler answers as it does for that dict passed
    directly as the event. *)
Theorem envelope_or_direct R Y fields b items w :
  dict_lookup fields "body" = Some b ->
  truthy b = true ->
  json_loads R b = Returns (PDict items) ->
  truthy (dict_get items "body" PNone) = false ->
  lambda_handler R Y (PDict fields) w = lambda_handler R Y (PDict items) w.
Proof.
  intros Hfield Htruthy Hloads Hinner.
  assert (request_body R (PDict fields) = Returns (PDict items)) as Houter.
  { unfold request_body, py_get, dict_get, obind. now rewrite Hfield, Htruthy. }
  assert (request_body R (PDict items) = Returns (PDict items)) as Hdirect.
  { unfold request_body, py_get, obind. now rewrite Hinner. }
  unfold lambda_handler, catch_all.
  now rewrite (lambda_handler_try_parsed _ _ _ _ _ Houter),
              (lambda_handler_try_parsed _ _ _ _ _ Hdirect).
Qed.

Lemma envelope_or_direct_witness :
  let request := [("url", PStr "https://youtu.be/abc123"); ("action", PStr "info")] in
  lambda_handler (stub_runtime_parsing (PDict request)) stub_A
    (PDict [("httpMethod", PStr "POST"); ("body", PStr "{...}")]) empty_world
  = lambda_handler (stub_runtime_parsing (PDict request)) stub_A (PDict request) empty_world.
Proof.
  apply (envelope_or_direct
           (stub_runtime_parsing
              (PDict [("url", PStr "https://youtu.be/abc123"); ("action", PStr "info")]))
           stub_A [("httpMethod", PStr "POST"); ("body", PStr "{...}")] (PStr "{...}")).
  - reflexivity.
  - reflexivity.
  - reflexivity.
  - reflexivity.
Defined.

(** X9. A truthy url that is a number or a boolean fails the marker test
    itself: the answer is 500 with the interpreter's "not iterable" text,
    not the 400 for an invalid url, and nothing else happens. *)
Theorem scalar_url_is_500 R Y event items w :
  request_body R event = Returns (PDict items) ->
  truthy (url_of items) = true ->
  (exists b, url_of items = PBool b) \/ (exists n, url_of items = PInt n)
  \/ (exists x, url_of items = PFloat x) ->
  lambda_handler R Y event w
  = (error_response R 500
       ("argument of type '" ++ type_name (url_of items) ++ "' is not iterable"), w).
Proof.
  intros Hbody Htruthy Hscalar. unfold lambda_handler, catch_all.
  rewrite (lambda_handler_try_parsed _ _ _ _ _ Hbody), Htruthy.
  destruct Hscalar as [[b ->] | [[n ->] | [x ->]]]; reflexivity.
Qed.

Lemma scalar_url_is_500_witness :
  lambda_handler stub_runtime stub_A (PDict [("url", PInt 42)]) empty_world
  = (error_response stub_runtime 500 "argument of type 'int' is not iterable",
     empty_world).
Proof.
  apply (scalar_url_is_500 stub_runtime stub_A _ [("url", PInt 42)] empty_world).
  - reflexivity.
  - reflexivity.
  - right; left. exists 42. reflexivity.
Defined.

(** X10. The marker test on a url that is a list is membership, not
    substring: such a url passes validation exactly when one of its
    elements is the string 'youtube.com' or the string 'youtu.be', and it
    is then handed to the dispatch as the list it is. *)
Theorem list_url_validation R Y event items elements w :
  request_body R event = Returns (PDict items) ->
  url_of items = PList elements ->
  (passes_validation (PList elements)
   <-> In (PStr "youtube.com") elements \/ In (PStr "youtu.be") elements)
  /\ (passes_validation (PList elements) ->
      lambda_handler R Y event w
      = catch_all R (dispatch R Y (PList elements) (action_of items) (format_of items)) w).
Proof.
  intros Hbody Hurl. split.
  - unfold passes_validation, is_youtube_url, py_in, obind.
    assert (forall m, existsb (fun v => py_eq_str v m) elements = true
                      <-> In (PStr m) elements) as Hmem.
    { intros m. rewrite existsb_exists. split.
      - intros (v & Hin & Heq). apply py_eq_str_true in Heq. now subst v.
      - intros Hin. exists (PStr m). split; [exact Hin | now apply py_eq_str_true]. }
    rewrite <- !Hmem. split.
    + intros [_ Hany].
      destruct (existsb _ elements); [now left | right; now injection Hany].
    + intros Hany. split.
      * destruct elements; [now destruct Hany | reflexivity].
      * destruct (existsb (fun v => py_eq_str v "youtube.com") elements);
          [reflexivity | destruct Hany as [Hany | ->]; [discriminate Hany | reflexivity]].
  - intros Hpass. rewrite <- Hurl in Hpass |- *.
    unfold lambda_handler, catch_all.
    now rewrite (lambda_handler_try_validated _ _ _ _ _ Hbody Hpass).
Qed.

Lemma list_url_validation_witness :
  passes_validation (PList [PStr "youtu.be"; PInt 7]).
Proof.
  apply (proj1 (list_url_validation stub_runtime stub_A
                  (PDict [("url", PList [PStr "youtu.be"; PInt 7])])
                  [("url", PList [PStr "youtu.be"; PInt 7])]
                  [PStr "youtu.be"; PInt 7] empty_world eq_refl eq_refl)).
  right; left; reflexivity.
Defined.

(** ** The info path on incomplete metadata *)

(** X11. When the probe answers a dict with none of the six fields, the
    response is still a 200: the title is "Unknown", the other four
    fields are null and [formats_available] is 0. *)
Theorem info_defaults R Y url info w :
  ydl_extract_info Y info_opts url false = Returns (PDict info) ->
  (forall key,
     In key ["title"; "thumbnail"; "duration"; "uploader"; "view_count"; "formats"] ->
     dict_lookup info key = None) ->
  fst (get_video_info R Y url w)
  = Returns
      (Response 200 [("Content-Type", "application/json")]
         ("{" ++ quoted "title" ++ ": " ++ quoted "Unknown" ++ ", "
              ++ quoted "thumbnail" ++ ": null, "
              ++ quoted "duration" ++ ": null, "
              ++ quoted "uploader" ++ ": null, "
              ++ quoted "view_count" ++ ": null, "
              ++ quoted "formats_available" ++ ": 0}")).
Proof.
  intros Hinfo Hmissing.
  assert (forall key default,
            In key ["title"; "thumbnail"; "duration"; "uploader"; "view_count"; "formats"] ->
            dict_get info key default = default) as Hdefault.
  { intros key default Hin. unfold dict_get. now rewrite (Hmissing key Hin). }
  rewrite (get_video_info_returns R Y url info [] w Hinfo).
  - rewrite !Hdefault by (simpl; tauto). reflexivity.
  - apply Hdefault. simpl; tauto.
Qed.

Lemma info_defaults_witness :
  fst (get_video_info stub_runtime
         (stub_writer "/tmp/tmpk3v9x2" []) (PStr "https://youtu.be/abc123") empty_world)
  = Returns
      (Response 200 [("Content-Type", "application/json")]
         ("{" ++ quoted "title" ++ ": " ++ quoted "Unknown" ++ ", "
              ++ quoted "thumbnail" ++ ": null, "
              ++ quoted "duration" ++ ": null, "
              ++ quoted "uploader" ++ ": null, "
              ++ quoted "view_count" ++ ": null, "
              ++ quoted "formats_available" ++ ": 0}")).
Proof.
  apply (info_defaults stub_runtime (stub_writer "/tmp/tmpk3v9x2" [])
           (PStr "https://youtu.be/abc123") [] empty_world).
  - reflexivity.
  - reflexivity.
Defined.

(** X12. The default for 'formats' covers a missing key only.  When the
    key is there with [None], a boolean or a number, [len] raises and the
    info path ends with that TypeError, after its one probe. *)
Theorem unsized_formats_raise R Y url info formats w :
  ydl_extract_info Y info_opts url false = Returns (PDict info) ->
  dict_lookup info "formats" = Some formats ->
  formats = PNone \/ (exists b, formats = PBool b) \/ (exists n, formats = PInt n)
  \/ (exists x, formats = PFloat x) ->
  get_video_info R Y url w
  = (Raises (Exn "TypeError"
               ("object of type '" ++ type_name formats ++ "' has no len()")),
     World (fs w) (trace w ++ [CallExtractInfo info_opts url false])).
Proof.
  intros Hinfo Hformats Hunsized. unfold get_video_info, bind, extract_info, log.
  fold info_opts. rewrite Hinfo. unfold lift, py_get.
  assert (dict_get info "formats" (PList []) = formats) as ->
    by (unfold dict_get; now rewrite Hformats).
  destruct Hunsized as [-> | [[b ->] | [[n ->] | [x ->]]]]; reflexivity.
Qed.

Lemma unsized_formats_raise_witness :
  let Y := {| ydl_extract_info := fun _ _ _ =>
                Returns (PDict [("title", PStr "T"); ("formats", PNone)]);
              ydl_download := fun _ _ files => (Returns tt, files) |} in
  fst (get_video_info stub_runtime Y (PStr "https://youtu.be/abc123") empty_world)
  = Raises (Exn "TypeError" "object of type 'NoneType' has no len()").
Proof.
  intros Y.
  refine (f_equal fst
            (unsized_formats_raise stub_runtime Y (PStr "https://youtu.be/abc123")
               [("title", PStr "T"); ("formats", PNone)] PNone empty_world _ _ _)).
  - reflexivity.
  - reflexivity.
  - left; reflexivity.
Defined.

(** X13. When the probe answers something that is not a dict ([None],
    say), the info path ends with the AttributeError of the first [get],
    after its one probe. *)
Theorem non_dict_info_raises R Y url info w :
  ydl_extract_info Y info_opts url false = Returns info ->
  (forall items, info <> PDict items) ->
  get_video_info R Y url w
  = (Raises (Exn "AttributeError"
               ("'" ++ type_name info ++ "' object has no attribute 'get'")),
     World (fs w) (trace w ++ [CallExtractInfo info_opts url false])).
Proof.
  intros Hinfo Hshape. unfold get_video_info, bind, extract_info, log.
  fold info_opts. rewrite Hinfo.
  destruct info; try reflexivity. now destruct (Hshape items).
Qed.

Lemma non_dict_info_raises_witness :
  let Y := {| ydl_extract_info := fun _ _ _ => Returns PNone;
              ydl_download := fun _ _ files => (Returns tt, files) |} in
  fst (get_video_info stub_runtime Y (PStr "https://youtu.be/abc123") empty_world)
  = Raises (Exn "AttributeError" "'NoneType' object has no attribute 'get'").
Proof.
  intros Y.
  refine (f_equal fst
            (non_dict_info_raises stub_runtime Y (PStr "https://youtu.be/abc123")
               PNone empty_world _ _)).
  - reflexivity.
  - discriminate.
Defined.

(** ** The download path and the file system *)

(** X14. When the name [tempfile] picks is not in use and the
    collaborator's download changes nothing outside the temporary
    directory, [download_video] leaves the file system exactly as it
    found it, whether it answers or raises. *)
Theorem download_restores_files R Y url format_type w :
  let temp_dir := mkdtemp R (fs w) in
  let ran := ydl_download Y (ydl_opts_in R format_type temp_dir) [url]
               (files_at_download R w) in
  fs w !! temp_dir = None ->
  (forall dir, dir <> temp_dir -> snd ran !! dir = files_at_download R w !! dir) ->
  fs (snd (download_video R Y url format_type w)) = fs w.
Proof.
  intros temp_dir ran Hfresh Hlocal.
  pose proof (download_video_world R Y url format_type w) as Hworld.
  cbv zeta in Hworld. rewrite Hworld. cbn [fs]. fold temp_dir. fold ran.
  apply map_eq. intros dir.
  destruct (decide (dir = temp_dir)) as [-> | Hne].
  - now rewrite lookup_delete_eq, Hfresh.
  - rewrite lookup_delete_ne by congruence.
    rewrite (Hlocal dir Hne). unfold files_at_download. fold temp_dir.
    now rewrite lookup_insert_ne by congruence.
Qed.

Lemma download_restores_files_witness :
  fs (snd (download_video stub_runtime
             (stub_writer "/tmp/tmpk3v9x2" [Entry "video.mp4" (Returns ["M"; "a"; "n"]%byte)])
             (PStr "https://youtu.be/abc123") (PStr "mp4") empty_world))
  = fs empty_world.
Proof.
  apply (download_restores_files stub_runtime
           (stub_writer "/tmp/tmpk3v9x2" [Entry "video.mp4" (Returns ["M"; "a"; "n"]%byte)])
           (PStr "https://youtu.be/abc123") (PStr "mp4") empty_world).
  - reflexivity.
  - intros dir Hne. change (dir <> "/tmp/tmpk3v9x2") in Hne.
    change (<["/tmp/tmpk3v9x2" := [Entry "video.mp4" (Returns ["M"; "a"; "n"]%byte)]]>
              (<["/tmp/tmpk3v9x2" := []]> (∅ : filesystem)) !! dir
            = <["/tmp/tmpk3v9x2" := []]> (∅ : filesystem) !! dir).
    now rewrite !lookup_insert_ne by congruence.
Defined.

(** X15. The output template handed to the collaborator is always the
    temporary directory, a slash, 'video.' and [str(format)]: as the
    second part starts with 'video.', no format value makes the join
    restart from an absolute path. *)
Theorem output_template_in_temp_dir R format_type temp_dir :
  temp_dir <> "" ->
  ends_with_slash temp_dir = false ->
  py_get (ydl_opts_in R format_type temp_dir) "outtmpl" PNone
  = Returns (PStr (temp_dir ++ "/video." ++ py_str R format_type)).
Proof.
  intros Hne Hslash.
  assert (os_path_join temp_dir ("video." ++ py_str R format_type)
          = temp_dir ++ "/video." ++ py_str R format_type) as Hjoin.
  { unfold os_path_join.
    change (String.prefix "/" ("video." ++ py_str R format_type)) with false.
    rewrite Hslash. destruct (String.eqb_spec temp_dir ""); [contradiction | reflexivity]. }
  unfold ydl_opts_in, download_opts. rewrite Hjoin.
  destruct (py_eq_str format_type "mp3"); reflexivity.
Qed.

Lemma output_template_in_temp_dir_witness :
  py_get (ydl_opts_in stub_runtime (PStr "/etc/passwd") "/tmp/tmpk3v9x2") "outtmpl" PNone
  = Returns (PStr "/tmp/tmpk3v9x2/video./etc/passwd").
Proof.
  apply (output_template_in_temp_dir stub_runtime (PStr "/etc/passwd") "/tmp/tmpk3v9x2").
  - discriminate.
  - reflexivity.
Defined.

(** X16. The label and the download options agree on 'mp3' and on 'mp4'
    only: the collaborator is asked for mp4 video while the response is
    labelled 'audio/mpeg' exactly for the formats that are neither. *)
Theorem label_and_options_disagree (format_type : pyval) (output_path : string) :
  (download_opts format_type output_path
   = PDict [("format", PStr "best[ext=mp4]/best");
            ("outtmpl", PStr output_path);
            ("quiet", PBool true)]
   /\ content_type format_type = "audio/mpeg")
  <-> (format_type <> PStr "mp3" /\ format_type <> PStr "mp4").
Proof.
  rewrite <- !py_eq_str_false. unfold download_opts, content_type.
  destruct (py_eq_str format_type "mp3"), (py_eq_str format_type "mp4");
    split; intros [H1 H2]; try discriminate; auto.
Qed.

(** X17. When the collaborator's download returns and the temporary
    directory then lists at least one entry that can be read,
    [download_video] answers 200 with that first entry alone: its bytes
    in base64, its name, and the label of the format.  The other entries
    play no part. *)
Theorem first_listed_file_is_returned R Y url format_type file0 rest file_data w :
  let temp_dir := mkdtemp R (fs w) in
  let ran := ydl_download Y (ydl_opts_in R format_type temp_dir) [url]
               (files_at_download R w) in
  fst ran = Returns tt ->
  snd ran !! temp_dir = Some (file0 :: rest) ->
  entry_read file0 = Returns file_data ->
  fst (download_video R Y url format_type w)
  = Returns
      (Response 200 [("Content-Type", "application/json")]
         (json_dumps R (PDict [("file_data", PStr (b64encode file_data));
                               ("filename", PStr (entry_name file0));
                               ("content_type", PStr (content_type format_type))]))).
Proof.
  intros temp_dir ran Hran Hdir Hread.
  rewrite download_video_run. cbv zeta. fold temp_dir. fold ran.
  now rewrite Hran, Hdir, Hread.
Qed.

Lemma first_listed_file_is_returned_witness :
  fst (download_video stub_runtime
         (stub_writer "/tmp/tmpk3v9x2"
            [Entry "video.mp3" (Returns ["M"; "a"]%byte);
             Entry "video.webp" (Returns ["M"; "a"; "n"]%byte)])
         (PStr "https://youtu.be/abc123") (PStr "mp3") empty_world)
  = Returns
      (Response 200 [("Content-Type", "application/json")]
         (json_dumps stub_runtime
            (PDict [("file_data", PStr "TWE="); ("filename", PStr "video.mp3");
                    ("content_type", PStr "audio/mpeg")]))).
Proof.
  apply (first_listed_file_is_returned stub_runtime
           (stub_writer "/tmp/tmpk3v9x2"
              [Entry "video.mp3" (Returns ["M"; "a"]%byte);
               Entry "video.webp" (Returns ["M"; "a"; "n"]%byte)])
           (PStr "https://youtu.be/abc123") (PStr "mp3")
           (Entry "video.mp3" (Returns ["M"; "a"]%byte))
           [Entry "video.webp" (Returns ["M"; "a"; "n"]%byte)]
           ["M"; "a"]%byte empty_world).
  - reflexivity.
  - reflexivity.
  - reflexivity.
Defined.

(** ** The base64 payload *)

(** Lists, three elements at a time. *)
Lemma list_ind3 {A} (P : list A -> Prop) :
  P [] ->
  (forall a, P [a]) ->
  (forall a b, P [a; b]) ->
  (forall a b c l, P l -> P (a :: b :: c :: l)) ->
  forall l, P l.
Proof.
  intros H0 H1 H2 H3 l.
  enough (P l /\ (forall a, P (a :: l)) /\ (forall a b, P (a :: b :: l))) by tauto.
  induction l as [|x l (IH0 & IH1 & IH2)]; auto.
Qed.

Lemma b64_index_char (n : N) :
  (n < 64)%N -> b64_index (b64_char n) = Some n.
Proof.
  intros Hn. destruct n as [|p]; [reflexivity|].
  do 7 (try destruct p as [p|p|]); try reflexivity; lia.
Qed.

Lemma b64_index_pad : b64_index "=" = None.
Proof. reflexivity. Qed.

Lemma sextet_bound (n : N) (k : N) : (N.land (N.shiftr n k) 63 < 64)%N.
Proof.
  change 63%N with (N.ones 6). rewrite N.land_ones. now apply N.mod_lt.
Qed.

Lemma sextet_div (n k : N) :
  N.land (N.shiftr n k) 63 = ((n / 2 ^ k) mod 64)%N.
Proof.
  change 63%N with (N.ones 6). now rewrite N.land_ones, N.shiftr_div_pow2.
Qed.

Lemma sextets_value (n : N) :
  (n < 16777216)%N ->
  (N.land (N.shiftr n 18) 63 * 262144 + N.land (N.shiftr n 12) 63 * 4096
   + N.land (N.shiftr n 6) 63 * 64 + N.land (N.shiftr n 0) 63 = n)%N.
Proof.
  intros Hn. rewrite !sextet_div.
  change (2 ^ 18)%N with 262144%N. change (2 ^ 12)%N with 4096%N.
  change (2 ^ 6)%N with 64%N. change (2 ^ 0)%N with 1%N.
  zify. Z.to_euclidean_division_equations. lia.
Qed.

Lemma b64_bytes_three (a b c : byte) :
  b64_bytes (Byte.to_N a * 65536 + Byte.to_N b * 256 + Byte.to_N c) 3 = Some [a; b; c].
Proof.
  pose proof (Byte.to_N_bounded a) as Ha.
  pose proof (Byte.to_N_bounded b) as Hb.
  pose proof (Byte.to_N_bounded c) as Hc.
  unfold b64_bytes.
  set (n := (Byte.to_N a * 65536 + Byte.to_N b * 256 + Byte.to_N c)%N).
  assert ((n / 65536)%N = Byte.to_N a) as ->
    by (subst n; zify; Z.to_euclidean_division_equations; lia).
  assert (((n / 256) mod 256)%N = Byte.to_N b) as ->
    by (subst n; zify; Z.to_euclidean_division_equations; lia).
  assert ((n mod 256)%N = Byte.to_N c) as ->
    by (subst n; zify; Z.to_euclidean_division_equations; lia).
  now rewrite !Byte.of_to_N.
Qed.

Lemma b64_bytes_keep (a b c : byte) (keep : nat) :
  b64_bytes (Byte.to_N a * 65536 + Byte.to_N b * 256 + Byte.to_N c) keep
  = Some (firstn keep [a; b; c]).
Proof.
  pose proof (b64_bytes_three a b c) as H. unfold b64_bytes in *.
  destruct (Byte.of_N _) as [a'|]; [|discriminate].
  destruct (Byte.of_N _) as [b'|]; [|discriminate].
  destruct (Byte.of_N _) as [c'|]; [|discriminate].
  now injection H as -> -> ->.
Qed.

(** Decoding undoes the encoding of one group, full or padded. *)
Lemma b64decode_full_group (a b c : byte) (rest : list byte) :
  b64decode (b64encode (a :: b :: c :: rest))
  = match b64decode (b64encode rest) with
    | Some tail => Some (a :: b :: c :: tail)
    | None => None
    end.
Proof.
  pose proof (Byte.to_N_bounded a) as Ha.
  pose proof (Byte.to_N_bounded b) as Hb.
  pose proof (Byte.to_N_bounded c) as Hc.
  cbn [b64encode].
  set (n := (Byte.to_N a * 65536 + Byte.to_N b * 256 + Byte.to_N c)%N).
  change (b64_group n 3 ++ b64encode rest)
    with (String (b64_char (N.land (N.shiftr n 18) 63))
            (String (b64_char (N.land (N.shiftr n 12) 63))
               (String (b64_char (N.land (N.shiftr n 6) 63))
                  (String (b64_char (N.land (N.shiftr n 0) 63)) (b64encode rest))))).
  cbn [b64decode].
  rewrite !b64_index_char by apply sextet_bound.
  rewrite sextets_value by (subst n; lia).
  subst n. rewrite b64_bytes_keep. reflexivity.
Qed.

Lemma b64decode_two_bytes (a b : byte) :
  b64decode (b64encode [a; b]) = Some [a; b].
Proof.
  pose proof (Byte.to_N_bounded a) as Ha.
  pose proof (Byte.to_N_bounded b) as Hb.
  cbn [b64encode].
  set (n := (Byte.to_N a * 65536 + Byte.to_N b * 256)%N).
  change (b64_group n 2)
    with (String (b64_char (N.land (N.shiftr n 18) 63))
            (String (b64_char (N.land (N.shiftr n 12) 63))
               (String (b64_char (N.land (N.shiftr n 6) 63)) "="))).
  cbn [b64decode].
  rewrite !b64_index_char by apply sextet_bound.
  rewrite b64_index_pad. cbn [Ascii.eqb Bool.eqb String.eqb andb].
  assert ((N.land (N.shiftr n 18) 63 * 262144 + N.land (N.shiftr n 12) 63 * 4096
           + N.land (N.shiftr n 6) 63 * 64)%N
          = (Byte.to_N a * 65536 + Byte.to_N b * 256 + Byte.to_N "000"%byte)%N) as ->.
  { pose proof (sextets_value n) as Hsum.
    assert (N.land (N.shiftr n 0) 63 = 0%N) as Hlow.
    { rewrite sextet_div. subst n. change (2 ^ 0)%N with 1%N.
      zify; Z.to_euclidean_division_equations; lia. }
    rewrite Hlow in Hsum. subst n. cbn [Byte.to_N]. lia. }
  now rewrite b64_bytes_keep.
Qed.

Lemma b64decode_one_byte (a : byte) :
  b64decode (b64encode [a]) = Some [a].
Proof.
  pose proof (Byte.to_N_bounded a) as Ha.
  cbn [b64encode].
  set (n := (Byte.to_N a * 65536)%N).
  change (b64_group n 1)
    with (String (b64_char (N.land (N.shiftr n 18) 63))
            (String (b64_char (N.land (N.shiftr n 12) 63)) "==")).
  cbn [b64decode].
  rewrite !b64_index_char by apply sextet_bound.
  rewrite b64_index_pad. cbn [Ascii.eqb Bool.eqb String.eqb andb].
  assert ((N.land (N.shiftr n 18) 63 * 262144 + N.land (N.shiftr n 12) 63 * 4096)%N
          = (Byte.to_N a * 65536 + Byte.to_N "000"%byte * 256 + Byte.to_N "000"%byte)%N)
    as ->.
  { pose proof (sextets_value n) as Hsum.
    assert (N.land (N.shiftr n 6) 63 = 0%N) as Hmid.
    { rewrite sextet_div. subst n. change (2 ^ 6)%N with 64%N.
      zify; Z.to_euclidean_division_equations; lia. }
    assert (N.land (N.shiftr n 0) 63 = 0%N) as Hlow.
    { rewrite sextet_div. subst n. change (2 ^ 0)%N with 1%N.
      zify; Z.to_euclidean_division_equations; lia. }
    rewrite Hmid, Hlow in Hsum. subst n. cbn [Byte.to_N]. lia. }
  now rewrite b64_bytes_keep.
Qed.

(** X18. The payload can be read back: decoding the base64 text of any
    bytes gives those bytes. *)
Theorem b64decode_b64encode (data : list byte) :
  b64decode (b64encode data) = Some data.
Proof.
  induction data as [| a | a b | a b c rest IH] using list_ind3.
  - reflexivity.
  - apply b64decode_one_byte.
  - apply b64decode_two_bytes.
  - now rewrite b64decode_full_group, IH.
Qed.

Lemma b64_group_length (n : N) (keep : nat) : String.length (b64_group n keep) = 4%nat.
Proof. unfold b64_group. now destruct keep as [|[|[|keep]]]. Qed.

Lemma string_length_app (s t : string) :
  String.length (s ++ t) = (String.length s + String.length t)%nat.
Proof.
  induction s as [|c s IH]; [reflexivity|].
  change (S (String.length (s ++ t)) = S (String.length s + String.length t)).
  now rewrite IH.
Qed.

(** X19. The base64 text of [n] bytes has four characters for every
    three bytes or part of three: its length is 4 * ceil(n / 3). *)
Theorem b64encode_length (data : list byte) :
  String.length (b64encode data) = (4 * ((List.length data + 2) / 3))%nat.
Proof.
  induction data as [| a | a b | a b c rest IH] using list_ind3; try reflexivity.
  cbn [b64encode List.length].
  rewrite string_length_app, b64_group_length, IH.
  replace (S (S (S (List.length rest))) + 2)%nat
    with (List.length rest + 2 + 1 * 3)%nat by lia.
  rewrite Nat.div_add by lia. lia.
Qed.

Lemma b64_char_needs_no_escape (n : N) :
  (n < 64)%N -> json_escape_char (b64_char n) = String (b64_char n) "".
Proof.
  intros Hn. destruct n as [|p]; [reflexivity|].
  do 7 (try destruct p as [p|p|]); try reflexivity; lia.
Qed.

Lemma json_escape_app (s t : string) :
  json_escape (s ++ t) = json_escape s ++ json_escape t.
Proof.
  induction s as [|c s IH]; [reflexivity|].
  change (json_escape_char c ++ json_escape (s ++ t)
          = (json_escape_char c ++ json_escape s) ++ json_escape t).
  rewrite IH. induction (json_escape_char c) as [|d e IHe]; [reflexivity|].
  change (String d (e ++ json_escape s ++ json_escape t)
          = String d ((e ++ json_escape s) ++ json_escape t)).
  now rewrite IHe.
Qed.

Lemma b64_group_needs_no_escape (n : N) (keep : nat) :
  json_escape (b64_group n keep) = b64_group n keep.
Proof.
  unfold b64_group.
  destruct keep as [|[|[|keep]]]; cbn [json_escape];
    rewrite !b64_char_needs_no_escape by apply sextet_bound; reflexivity.
Qed.

(** X20. The base64 text goes into the JSON body as it is: none of its
    characters is escaped by [json.dumps], so the [file_data] field holds
    exactly the encoder's output between two double quotes. *)
Theorem file_data_needs_no_escape (data : list byte) :
  json_string (b64encode data) = quoted (b64encode data).
Proof.
  unfold json_string, quoted. f_equal. f_equal.
  induction data as [| a | a b | a b c rest IH] using list_ind3;
    try reflexivity; try apply b64_group_needs_no_escape.
  cbn [b64encode]. now rewrite json_escape_app, b64_group_needs_no_escape, IH.
Qed.

(** ** The text of an error body *)

Lemma all_printable_app (s t : string) :
  all_printable (s ++ t) = all_printable s && all_printable t.
Proof.
  induction s as [|c s IH]; [reflexivity|].
  change (printable c && all_printable (s ++ t)
          = printable c && all_printable s && all_printable t).
  now rewrite IH, andb_assoc.
Qed.

(** * The handler and exceptions of any class *)

(** ** The second embedding on a validated request *)

Lemma raising_try_validated R W event items w :
  request_body R event = Returns (PDict items) ->
  passes_validation (url_of items) ->
  Raising.lambda_handler_try R W event w
  = Raising.dispatch R W (url_of items) (action_of items) (format_of items) w.
Proof.
  intros Hbody [Htruthy Hvalid].
  unfold Raising.lambda_handler_try, Raising.bind, Raising.lift.
  rewrite Hbody. cbn [Raising.of_outcome py_get].
  fold (url_of items). rewrite Htruthy, Hvalid. reflexivity.
Qed.

(** What [download_video] does when anything may be raised, path by path. *)
Lemma raising_download_video_run R W url format_type w :
  let temp_dir := mkdtemp R (fs w) in
  let ydl_opts := ydl_opts_in R format_type temp_dir in
  let ran := Raising.ydl_download W ydl_opts [url] (files_at_download R w) in
  let w' := World (delete temp_dir (snd ran))
                  (trace w ++ [MakeTempDir temp_dir; CallDownload ydl_opts [url];
                               RemoveTempDir temp_dir]) in
  Raising.download_video R W url format_type w
  = match fst ran with
    | Raising.Raised x => (Raising.Raised x, w')
    | Raising.Returned _ =>
        match snd ran !! temp_dir with
        | None =>
            (Raising.Raised
               (Raising.Instance_of_Exception
                  (Exn "FileNotFoundError"
                       ("[Errno 2] No such file or directory: "
                        ++ py_repr R (PStr temp_dir)))), w')
        | Some [] =>
            (Raising.Raised
               (Raising.Instance_of_Exception
                  (Exception "Download failed - no file created")), w')
        | Some (file0 :: _) =>
            match entry_read file0 with
            | Raises e => (Raising.Raised (Raising.Instance_of_Exception e), w')
            | Returns file_data =>
                (Raising.Returned
                   (Response 200 json_headers
                      (json_dumps R
                         (PDict [("file_data", PStr (b64encode file_data));
                                 ("filename", PStr (entry_name file0));
                                 ("content_type", PStr (content_type format_type))]))),
                 w')
            end
        end
    end.
Proof.
  intros temp_dir ydl_opts ran w'.
  unfold Raising.download_video, Raising.with_TemporaryDirectory,
    Raising.download_body, Raising.bind, Raising.download.
  cbn [fs trace]. fold temp_dir.
  change (download_opts format_type
            (os_path_join temp_dir ("video." ++ py_str R format_type)))
    with ydl_opts.
  change (Raising.ydl_download W ydl_opts [url] (<[temp_dir:=[]]> (fs w))) with ran.
  subst w'.
  destruct ran as [[[]|x] files']; cbn [fst snd fs trace].
  2: { now rewrite <- !app_assoc. }
  unfold Raising.plain, os_listdir. cbn [fs].
  destruct (files' !! temp_dir) as [[|file0 rest]|] eqn:Hdir;
    cbn [List.map Raising.of_outcome Raising.lift fs trace];
    try (now rewrite <- !app_assoc).
  unfold read_file. cbn [fs]. rewrite Hdir. cbn [find]. rewrite String.eqb_refl.
  destruct (entry_read file0); cbn [Raising.of_outcome Raising.ret fs trace];
    now rewrite <- !app_assoc.
Qed.

(** ** The two embeddings agree *)

Lemma raising_get_video_info_plain R Y url w :
  Raising.get_video_info R (any_raising Y) url w
  = Raising.plain (get_video_info R Y url) w.
Proof.
  unfold Raising.get_video_info, get_video_info, Raising.plain,
    Raising.bind, bind, Raising.extract_info, extract_info,
    Raising.lift, lift, Raising.ret, ret.
  cbn [any_raising Raising.ydl_extract_info].
  destruct (ydl_extract_info Y _ url false) as [info|e]; [|reflexivity].
  cbn [Raising.of_outcome].
  repeat match goal with
         | |- context [py_get ?o ?k ?d] =>
             destruct (py_get o k d); cbn [Raising.of_outcome]; [|reflexivity]
         end.
  destruct (py_len _); reflexivity.
Qed.

Lemma raising_download_video_plain R Y url format_type w :
  Raising.download_video R (any_raising Y) url format_type w
  = Raising.plain (download_video R Y url format_type) w.
Proof.
  unfold Raising.plain.
  rewrite raising_download_video_run, download_video_run. cbv zeta.
  cbn [any_raising Raising.ydl_download].
  destruct (ydl_download Y _ _ _) as [[[]|e] files']; cbn [fst snd Raising.of_outcome];
    [|reflexivity].
  destruct (files' !! _) as [[|file0 rest]|]; try reflexivity.
  destruct (entry_read file0); reflexivity.
Qed.

Lemma raising_try_plain R Y event w :
  Raising.lambda_handler_try R (any_raising Y) event w
  = Raising.plain (lambda_handler_try R Y event) w.
Proof.
  unfold Raising.lambda_handler_try, lambda_handler_try, Raising.bind, bind,
    Raising.lift, lift.
  destruct (request_body R event) as [parsed|e]; [|reflexivity].
  cbn [Raising.of_outcome].
  destruct parsed; try reflexivity.
  cbn [py_get Raising.of_outcome].
  destruct (truthy _); cbn [negb]; [|reflexivity].
  destruct (is_youtube_url _) as [[|]|e]; cbn [Raising.of_outcome negb];
    try reflexivity.
  unfold Raising.dispatch, dispatch.
  destruct (py_eq_str _ "info"); [apply raising_get_video_info_plain|].
  destruct (py_eq_str _ "download"); [apply raising_download_video_plain|].
  reflexivity.
Qed.

(** With a collaborator that raises instances of [Exception] only, the
    call always returns, and what it returns is the response and the world
    of the first embedding. *)
Lemma raising_lambda_handler_plain R Y event w :
  Raising.lambda_handler R (any_raising Y) event w
  = (Raising.Returned (fst (lambda_handler R Y event w)),
     snd (lambda_handler R Y event w)).
Proof.
  unfold Raising.lambda_handler. rewrite raising_try_plain.
  unfold Raising.plain, lambda_handler, catch_all.
  destruct (lambda_handler_try R Y event w) as [[r|e] w']; reflexivity.
Qed.

(** ** The catch-all and what it lets through *)

(** C9, as stated, fails: an exception outside [Exception] is not caught
    by [except Exception].  When the collaborator's probe is interrupted
    by a [KeyboardInterrupt] on the scenario A request, the handler makes
    no response: the interrupt goes to its caller. *)
Lemma interrupt_reaches_the_caller :
  Raising.lambda_handler stub_runtime Raising.stub_interrupted scenario_A_event empty_world
  = (Raising.Raised (Raising.Outside_Exception "KeyboardInterrupt" ""),
     World ∅ [CallExtractInfo info_opts (PStr "https://youtu.be/abc123") false])
  /\ ~ (exists r w',
          Raising.lambda_handler stub_runtime Raising.stub_interrupted
            scenario_A_event empty_world
          = (Raising.Returned r, w')).
Proof.
  split; [reflexivity | intros (r & w' & H); discriminate H].
Qed.

(** C9, amended.  Every instance of [Exception] raised during processing
    is answered: status 500, the JSON content-type header, and the body
    [{"error": str(e)}].  This holds for whatever ends the [try] block,
    and stage by stage for the parsing of the body, the collaborator's
    probe, the collaborator's download and the reading of the file.  The
    handler never passes an instance of [Exception] on to its caller;
    what it passes on is exactly what the [try] block raised outside
    [Exception]; and with a collaborator that raises instances of
    [Exception] only, every call returns a response, the one
    [lambda_handler] gives. *)
Theorem exception_instances_are_answered R W event w :
  (forall e w',
     Raising.lambda_handler_try R W event w
     = (Raising.Raised (Raising.Instance_of_Exception e), w') ->
     Raising.lambda_handler R W event w = (Raising.Returned (answer_500 R e), w'))
  /\ (forall e,
        request_body R event = Raises e ->
        Raising.lambda_handler R W event w = (Raising.Returned (answer_500 R e), w))
  /\ (forall items e,
        request_body R event = Returns (PDict items) ->
        passes_validation (url_of items) ->
        action_of items = PStr "info" ->
        Raising.ydl_extract_info W info_opts (url_of items) false
        = Raising.Raised (Raising.Instance_of_Exception e) ->
        fst (Raising.lambda_handler R W event w) = Raising.Returned (answer_500 R e))
  /\ (forall items e,
        request_body R event = Returns (PDict items) ->
        passes_validation (url_of items) ->
        action_of items = PStr "download" ->
        fst (Raising.ydl_download W
               (ydl_opts_in R (format_of items) (mkdtemp R (fs w)))
               [url_of items] (files_at_download R w))
        = Raising.Raised (Raising.Instance_of_Exception e) ->
        fst (Raising.lambda_handler R W event w) = Raising.Returned (answer_500 R e))
  /\ (forall items file0 rest e,
        request_body R event = Returns (PDict items) ->
        passes_validation (url_of items) ->
        action_of items = PStr "download" ->
        let ran := Raising.ydl_download W
                     (ydl_opts_in R (format_of items) (mkdtemp R (fs w)))
                     [url_of items] (files_at_download R w) in
        fst ran = Raising.Returned tt ->
        snd ran !! mkdtemp R (fs w) = Some (file0 :: rest) ->
        entry_read file0 = Raises e ->
        fst (Raising.lambda_handler R W event w) = Raising.Returned (answer_500 R e))
  /\ (forall e w',
        Raising.lambda_handler R W event w
        <> (Raising.Raised (Raising.Instance_of_Exception e), w'))
  /\ (forall class_name text w',
        Raising.lambda_handler R W event w
        = (Raising.Raised (Raising.Outside_Exception class_name text), w')
        <-> Raising.lambda_handler_try R W event w
            = (Raising.Raised (Raising.Outside_Exception class_name text), w'))
  /\ (forall Y,
        W = any_raising Y ->
        Raising.lambda_handler R W event w
        = (Raising.Returned (fst (lambda_handler R Y event w)),
           snd (lambda_handler R Y event w))).
Proof.
  split; [|split; [|split; [|split; [|split; [|split; [|split]]]]]].
  - intros e w' Hraise. unfold Raising.lambda_handler. now rewrite Hraise.
  - intros e Hbody.
    unfold Raising.lambda_handler, Raising.lambda_handler_try, Raising.bind, Raising.lift.
    now rewrite Hbody.
  - intros items e Hbody Hpass Haction Hfail. unfold Raising.lambda_handler.
    rewrite (raising_try_validated _ _ _ _ _ Hbody Hpass).
    unfold Raising.dispatch. rewrite Haction.
    cbn [py_eq_str String.eqb Ascii.eqb Bool.eqb].
    unfold Raising.get_video_info, Raising.bind, Raising.extract_info.
    fold info_opts. now rewrite Hfail.
  - intros items e Hbody Hpass Haction Hfail. unfold Raising.lambda_handler.
    rewrite (raising_try_validated _ _ _ _ _ Hbody Hpass).
    unfold Raising.dispatch. rewrite Haction.
    cbn [py_eq_str String.eqb Ascii.eqb Bool.eqb].
    rewrite raising_download_video_run. cbv zeta. now rewrite Hfail.
  - intros items file0 rest e Hbody Hpass Haction ran Hran Hdir Hread.
    unfold Raising.lambda_handler.
    rewrite (raising_try_validated _ _ _ _ _ Hbody Hpass).
    unfold Raising.dispatch. rewrite Haction.
    cbn [py_eq_str String.eqb Ascii.eqb Bool.eqb].
    rewrite raising_download_video_run. cbv zeta. fold ran.
    now rewrite Hran, Hdir, Hread.
  - intros e w'. unfold Raising.lambda_handler.
    destruct (Raising.lambda_handler_try R W event w) as [[r|[e0|c t]] w0];
      discriminate.
  - intros class_name text w'. unfold Raising.lambda_handler.
    destruct (Raising.lambda_handler_try R W event w) as [[r|[e0|c t]] w0];
      split; try discriminate; trivial.
  - intros Y ->. apply raising_lambda_handler_plain.
Qed.

Lemma exception_instances_are_answered_witness :
  Raising.lambda_handler stub_runtime Raising.stub_interrupted
    (PDict [("body", PStr "<html>")]) empty_world
  = (Raising.Returned
       (Response 500 [("Content-Type", "application/json")]
          ("{" ++ quoted "error" ++ ": "
               ++ quoted "Expecting value: line 1 column 1 (char 0)" ++ "}")),
     empty_world)
  /\ fst (Raising.lambda_handler stub_runtime
            (any_raising (stub_failing (Exn "DownloadError" "ERROR: Video unavailable")))
            scenario_A_event empty_world)
     = Raising.Returned
         (Response 500 [("Content-Type", "application/json")]
            ("{" ++ quoted "error" ++ ": " ++ quoted "ERROR: Video unavailable" ++ "}")).
Proof.
  split.
  - apply (proj1 (proj2 (exception_instances_are_answered stub_runtime
                            Raising.stub_interrupted
                            (PDict [("body", PStr "<html>")]) empty_world))
             (Exn "JSONDecodeError" "Expecting value: line 1 column 1 (char 0)")).
    reflexivity.
  - apply (proj1 (proj2 (proj2 (exception_instances_are_answered stub_runtime
                            (any_raising
                               (stub_failing (Exn "DownloadError" "ERROR: Video unavailable")))
                            scenario_A_event empty_world)))
             [("url", PStr "https://youtu.be/abc123"); ("action", PStr "info")]
             (Exn "DownloadError" "ERROR: Video unavailable")).
    + reflexivity.
    + split; reflexivity.
    + reflexivity.
    + reflexivity.
Defined.

(** ** The text of an error body, for any code points *)

Lemma hex_digit_printable (k : N) : (k < 16)%N -> printable (hex_digit k) = true.
Proof.
  intros Hk. destruct k as [|p]; [reflexivity|].
  do 5 (try destruct p as [p|p|]); try reflexivity; lia.
Qed.

Lemma hex4_printable (n : N) : all_printable (hex4 n) = true.
Proof.
  unfold hex4. cbn [all_printable].
  rewrite !hex_digit_printable by (apply N.mod_lt; discriminate). reflexivity.
Qed.

Lemma json_escape_code_point_printable (n : N) :
  all_printable (json_escape_code_point n) = true.
Proof.
  unfold json_escape_code_point.
  repeat match goal with
         | |- context [(n =? ?k)%N] => destruct (n =? k)%N; [reflexivity|]
         end.
  destruct ((32 <=? n) && (n <=? 126))%N eqn:Hrange.
  - cbn [all_printable]. unfold printable.
    rewrite N_ascii_embedding, Hrange; [reflexivity|].
    apply andb_prop in Hrange as [_ Hle]. apply N.leb_le in Hle. lia.
  - destruct (n <? 65536)%N; cbv zeta;
      rewrite ?all_printable_app, ?hex4_printable; reflexivity.
Qed.

Lemma json_escape_text_printable (message : list N) :
  all_printable (json_escape_text message) = true.
Proof.
  induction message as [|n rest IH]; [reflexivity|].
  cbn [json_escape_text].
  now rewrite all_printable_app, json_escape_code_point_printable, IH.
Qed.

(** On the code points below 256 the two encoders are one. *)
Lemma json_escape_char_code_point (c : ascii) :
  json_escape_char c = json_escape_code_point (N_of_ascii c).
Proof.
  destruct c as [[] [] [] [] [] [] [] []]; reflexivity.
Qed.

Lemma json_escape_code_points (s : string) :
  json_escape s = json_escape_text (code_points s).
Proof.
  induction s as [|c s IH]; [reflexivity|].
  cbn [json_escape code_points json_escape_text].
  now rewrite json_escape_char_code_point, IH.
Qed.

(** X21. Whatever the characters of the message or of [str(exception)]
    (quotes, backslashes, line breaks, control characters, any Unicode
    code point, paired surrogates included), the body [json.dumps] makes
    for an error response consists of printable ASCII characters only;
    and the body of [error_response] is that text for the code points of
    its message. *)
Theorem error_body_is_printable_ascii :
  (forall message : list N, all_printable (error_body_text message) = true)
  /\ (forall R status message,
        body (error_response R status message) = error_body_text (code_points message)).
Proof.
  split.
  - intros message. unfold error_body_text.
    rewrite !all_printable_app, json_escape_text_printable. reflexivity.
  - intros R status message.
    change (body (error_response R status message))
      with ("{" ++ quoted "error" ++ ": " ++ json_string message ++ "}").
    unfold json_string, error_body_text. now rewrite json_escape_code_points.
Qed.
